(** * verify.py: validation of fixed-format FORTRAN source lines

    A shallow embedding of [scripts/verify.py] (hughcoleman/fortran) and
    the properties of its validation loop.

    Python values are modelled as follows.
    - [str]: a list of characters; a character is a code point below 256
      (the Latin-1 range), carried by [ascii].  The classification of
      characters ([str.isspace], [str.isdigit]) and the conversion [int]
      are those of CPython 3 on that range.
    - [int]: [Z] for the values produced by [int(...)] and for the sequence
      cursor, [nat] for line numbers, columns and lengths.
    - [dict]: a [gmap] (the label table is only read by key, by size and
      by its largest key).
    - exceptions: a [result] type; the list [issues] is a value that
      survives a raise, as the Python list does. *)

From Stdlib Require Import String Ascii List ZArith NArith Bool Lia DecimalString
  Sorted.
From stdpp Require Import gmap.
Import ListNotations.

Local Open Scope char_scope.
Local Open Scope list_scope.
Local Open Scope nat_scope.

Arguments Ascii.eqb : simpl never.

(** ** Python strings and their built-in operations *)

Abbreviation str := (list ascii).

(** A string literal of the source. *)
Definition lit (s : string) : str := list_ascii_of_string s.

(** [ord(c)]. *)
Definition ord (c : ascii) : N := N_of_ascii c.

(** [chr(n)], for [n < 256]. *)
Definition chr (n : N) : ascii := ascii_of_N n.

Definition in_range (lo hi : N) (c : ascii) : bool :=
  ((lo <=? ord c) && (ord c <=? hi))%N.

(** [c.isspace()]: U+0009..U+000D, U+001C..U+001F, U+0020, U+0085, U+00A0. *)
Definition py_isspace (c : ascii) : bool :=
  in_range 9 13 c || in_range 28 31 c || in_range 32 32 c
  || in_range 133 133 c || in_range 160 160 c.

(** [c.isdecimal()]: the digits 0..9 are the only decimal digits below
    U+0100. *)
Definition is_decimal (c : ascii) : bool := in_range 48 57 c.

(** [c.isdigit()]: the decimal digits and the superscripts U+00B2, U+00B3
    and U+00B9, which are digits but not decimal digits. *)
Definition py_isdigit_char (c : ascii) : bool :=
  is_decimal c || in_range 178 179 c || in_range 185 185 c.

(** Truth value of a string: non-empty. *)
Definition truthy (s : str) : bool :=
  match s with [] => false | _ :: _ => true end.

(** [s.isdigit()]: at least one character, and all of them digits. *)
Definition isdigit (s : str) : bool := truthy s && forallb py_isdigit_char s.

Fixpoint lstrip (s : str) : str :=
  match s with
  | c :: r => if py_isspace c then lstrip r else s
  | [] => []
  end.

Definition rstrip (s : str) : str := rev (lstrip (rev s)).

(** [s.strip()]: white space removed at both ends. *)
Definition strip (s : str) : str := rstrip (lstrip s).

(** [s[a:b]] for [0 <= a <= b]. *)
Definition slice (a b : nat) (s : str) : str := firstn (b - a) (skipn a s).

Fixpoint startswith (s p : str) : bool :=
  match p, s with
  | [], _ => true
  | x :: p', y :: s' => Ascii.eqb x y && startswith s' p'
  | _ :: _, [] => false
  end.

(** [sub in s] for strings: [sub] occurs in [s] as a substring. *)
Fixpoint contains (s sub : str) : bool :=
  startswith s sub || match s with [] => false | _ :: r => contains r sub end.

(** [c in s] for a single character [c]. *)
Definition char_in (c : ascii) (s : str) : bool := existsb (Ascii.eqb c) s.
Arguments char_in : simpl never.

Fixpoint str_eqb (a b : str) : bool :=
  match a, b with
  | [], [] => true
  | x :: a', y :: b' => if Ascii.eqb x y then str_eqb a' b' else false
  | _, _ => false
  end.

Fixpoint enumerate_from {A} (i : nat) (l : list A) : list (nat * A) :=
  match l with
  | [] => []
  | x :: r => (i, x) :: enumerate_from (S i) r
  end.

(** [enumerate(l)]. *)
Definition enumerate {A} (l : list A) : list (nat * A) := enumerate_from 0 l.

(** [sep.join(l)]. *)
Fixpoint join (sep : str) (l : list str) : str :=
  match l with
  | [] => []
  | [x] => x
  | x :: r => x ++ sep ++ join sep r
  end.

(** [c * n]. *)
Definition times (c : ascii) (n : nat) : str := repeat c n.

(** [str(n)] for integers. *)
Definition str_of_nat (n : nat) : str :=
  lit (NilEmpty.string_of_uint (Nat.to_uint n)).

Definition str_of_Z (z : Z) : str :=
  lit (NilEmpty.string_of_int (Z.to_int z)).

(** ** Exceptions *)

Inductive exn : Set := ValueError | IndexError.

Inductive result (A : Type) : Type :=
| Ok (a : A)
| Raise (e : exn).
Arguments Ok {A} a.
Arguments Raise {A} e.

(** ** [int(s)]

    CPython converts a [str] in two steps.  The string is first brought to
    ASCII ([_PyUnicode_TransformDecimalAndSpaceToASCII]): an all-ASCII
    string is kept as it is; otherwise code points below 127 are kept,
    white space becomes a blank, a decimal digit its ASCII digit, and the
    first other character becomes [?] and ends the string.  The result is
    then read by [PyLong_FromString] in base 10: C white space, a sign,
    digits with single underscores between them, C white space.  (The
    limit on the number of digits of recent versions is beyond the eight
    characters of a field.) *)

(** [Py_ISSPACE]: the white space of the C locale. *)
Definition c_isspace (c : ascii) : bool := in_range 9 13 c || in_range 32 32 c.

Definition all_ascii (s : str) : bool := forallb (fun c => (ord c <? 128)%N) s.

Fixpoint transform_loop (s : str) : str :=
  match s with
  | [] => []
  | c :: r =>
      if (ord c <? 127)%N then c :: transform_loop r
      else if py_isspace c then " " :: transform_loop r
      else ["?"]
  end.

Definition transform (s : str) : str :=
  if all_ascii s then s else transform_loop s.

Fixpoint skip_c_space (s : str) : str :=
  match s with
  | c :: r => if c_isspace c then skip_c_space r else s
  | [] => []
  end.

Definition digit_value (c : ascii) : Z := Z.of_N (ord c) - 48.

(** The digit loop: [prev_us] tells that the previous character was an
    underscore; the result is the value, the number of digits, whether the
    last character read was an underscore, and the rest of the string. *)
Fixpoint scan_digits (prev_us : bool) (acc : Z) (nd : nat) (s : str)
  : option (Z * nat * bool * str) :=
  match s with
  | c :: r =>
      if is_decimal c then scan_digits false (10 * acc + digit_value c) (S nd) r
      else if Ascii.eqb c "_" then
        if prev_us then None else scan_digits true acc nd r
      else Some (acc, nd, prev_us, s)
  | [] => Some (acc, nd, prev_us, [])
  end.

Definition long_from_string (s : str) : option Z :=
  let s1 := skip_c_space s in
  let '(sign, s2) :=
    match s1 with
    | c :: r =>
        if Ascii.eqb c "+" then (1%Z, r)
        else if Ascii.eqb c "-" then ((-1)%Z, r)
        else (1%Z, s1)
    | [] => (1%Z, s1)
    end in
  if startswith s2 (lit "_") then None
  else
    match scan_digits false 0 0 s2 with
    | None => None
    | Some (v, nd, us, rest) =>
        if us then None
        else if Nat.eqb nd 0 then None
        else match skip_c_space rest with
             | [] => Some (sign * v)%Z
             | _ :: _ => None
             end
    end.

Definition py_int (s : str) : result Z :=
  match long_from_string (transform s) with
  | Some z => Ok z
  | None => Raise ValueError
  end.

(** ** The source program *)

(** [CHARSET] (line 17). *)
Definition CHARSET : str := lit "123456789 =-ABCDEFGHI+.)JKLMNOPQR-$*/STUVWXYZ0,(".

(** [class ANSI]. *)
Module ANSI.
Definition ESC : ascii := chr 27.
Definition RESET : str := ESC :: lit "[0m".
Definition BOLD : str := ESC :: lit "[37;1m".
Definition GREEN : str := ESC :: lit "[32m".
Definition YELLOW : str := ESC :: lit "[33m".
Definition RED : str := ESC :: lit "[31m".
End ANSI.

(** [class Issue]: the attributes set by [__init__]; [dangerous] defaults
    to [False] and [suggestions] to the empty list. *)
Record Issue : Type := mkIssue {
  fp : str;
  ln : nat;
  cols : list nat;
  statement : str;
  details : list str;
  dangerous : bool;
  suggestions : list str
}.

Definition subscript {A} (l : list A) (i : nat) : result A :=
  match nth_error l i with
  | Some x => Ok x
  | None => Raise IndexError
  end.

(** [Issue.__str__] (lines 47-75). *)
Definition render (i : Issue) : result str :=
  let gutter := lit " " ++ str_of_nat (ln i) ++ lit " | " in
  let spacer := times " " (length gutter - 2) ++ lit "| " in
  match subscript (cols i) 0 with
  | Raise e => Raise e
  | Ok col0 =>
      match subscript (details i) 1 with
      | Raise e => Raise e
      | Ok detail1 =>
          Ok ((ANSI.BOLD ++ fp i ++ lit ":" ++ str_of_nat (ln i) ++ lit ":"
                 ++ str_of_nat col0 ++ ANSI.RESET ++ lit ": "
                 ++ (if dangerous i then ANSI.RED else ANSI.YELLOW)
                 ++ (if dangerous i then lit "error" else lit "warning")
                 ++ ANSI.RESET ++ lit ": " ++ join (lit " ") (details i)
                 ++ [chr 10])
              ++ (gutter ++ statement i ++ [chr 10])
              ++ spacer
              ++ (times " " (col0 - 1)
                    ++ (lit "^" ++ times "~" (length (cols i) - 1))
                    ++ lit " " ++ detail1 ++ [chr 10])
              ++ join [chr 10]
                   (map (fun suggestion =>
                           times " " (length gutter - 2) ++ lit "= help: "
                             ++ suggestion)
                        (suggestions i))
              ++ [chr 10])
      end
  end.

(** The two variables carried from one statement to the next: [labels]
    (label to declaration line) and [sequencing]. *)
Record State : Type := mkState {
  labels : gmap Z nat;
  sequencing : Z
}.

(** Lines 89-90. *)
Definition initial : State := {| labels := ∅; sequencing := (-1)%Z |}.

(** The body of the loop appends to [issues] and may raise: a computation
    yields the issues it appended, in order, and its outcome.  What was
    appended before a raise stays appended. *)
Definition M (A : Type) : Type := list Issue * result A.

Definition ret {A} (a : A) : M A := ([], Ok a).

Definition bind {A B} (m : M A) (f : A -> M B) : M B :=
  match m with
  | (out, Ok a) => let '(out', r) := f a in (out ++ out', r)
  | (out, Raise e) => (out, Raise e)
  end.

(** [issues.append(...)], for each issue of the list in turn. *)
Definition emit (out : list Issue) : M unit := (out, Ok tt).

Definition lift {A} (r : result A) : M A := ([], r).

Notation "x <- m ;; k" := (bind m (fun x => k))
  (at level 100, m at next level, right associativity).
Notation "m ;; k" := (bind m (fun _ => k))
  (at level 100, right associativity).

(** [max(labels.keys())]; the source asks for it only after
    [len(labels.keys()) >= 1]. *)
Definition max_key (m : gmap Z nat) : option Z :=
  match map (fun kv => fst kv) (map_to_list m) with
  | [] => None
  | k :: ks => Some (fold_left Z.max ks k)
  end.

Section Statement.
Variable fp : str.
Variable ln : nat.
Variable statement : str.

Definition issue (cols : list nat) (details : list str) (dangerous : bool)
    (suggestions : list str) : Issue :=
  mkIssue fp ln cols statement details dangerous suggestions.

(** Lines 96-108. *)
Definition charset_issues : list Issue :=
  flat_map (fun '(column, c) =>
              if negb (char_in c CHARSET) then
                [issue [column + 1]
                   [lit "statement contains"; lit "illegal character"]
                   true [lit "try removing"]]
              else [])
           (enumerate statement).

(** Lines 111-125. *)
Definition length_issues : list Issue :=
  if 80 <? length (strip statement) then
    let overflow := seq 81 (length (strip statement) + 1 - 81) in
    [issue overflow [lit "statement exceeds 80 column limit"; lit ""] false
       [lit "break statement across multiple lines using continuation field"]]
  else [].

(** Lines 132-137. *)
Definition label : str := slice 0 5 statement.
Definition continuation : str := slice 5 6 statement.
Definition expression : str := slice 6 72 statement.
Definition sequence : str := slice 72 80 statement.

(** Lines 140-152. *)
Definition label_charset_issues : list Issue :=
  flat_map (fun '(column, c) =>
              if negb (char_in c (lit " 0123456789")) then
                [issue [column + 1]
                   [lit "label field contains"; lit "illegal character"]
                   true [lit "try removing"]]
              else [])
           (enumerate label).

(** Lines 154-188. *)
Definition label_rule (labels : gmap Z nat) : M (gmap Z nat) :=
  if truthy (strip label) && isdigit (strip label) then
    L <- lift (py_int label) ;;
    emit (match labels !! L with
          | Some declared =>
              [issue [1; 2; 3; 4; 5]
                 [lit "duplicate label";
                  lit "already defined on line " ++ str_of_nat declared]
                 true [lit "try relabelling"]]
          | None =>
              if (1 <=? size labels)
                 && match max_key labels with
                    | Some largest => (L <? largest)%Z
                    | None => false
                    end
              then
                [issue [1; 2; 3; 4; 5]
                   [lit "badly ordered labels";
                    lit "previous was "
                      ++ match max_key labels with
                         | Some largest => str_of_Z largest
                         | None => []
                         end]
                   false [lit "label statements sequentially"]]
              else []
          end) ;;
    ret (<[L := ln]> labels)
  else ret labels.

(** Lines 191-203. *)
Definition continuation_issues : list Issue :=
  if truthy (strip continuation)
     && negb (contains (lit "*!23456789") (strip continuation))
  then
    [issue [6] [lit "continuation field contains"; lit "illegal character"]
       false [lit "use ! or * to denote a continuation statement"]]
  else [].

(** Lines 206-217. *)
Definition sequence_charset_issues : list Issue :=
  flat_map (fun '(column, c) =>
              if negb (char_in c (lit "0123456789")) then
                [issue [73 + column]
                   [lit "sequence field contains"; lit "illegal character"]
                   false [lit "try removing"]]
              else [])
           (enumerate (strip sequence)).

(** Lines 219-228. *)
Definition justify_issues : list Issue :=
  if truthy sequence && startswith sequence (lit " ") then
    [issue [73; 74; 75; 76; 77; 78; 79; 80]
       [lit "consider left-justifying sequence field"; lit ""] false []]
  else [].

(** Lines 230-243. *)
Definition sequence_rule (sequencing : Z) : M Z :=
  if truthy sequence && isdigit (strip sequence) then
    S1 <- lift (py_int (strip sequence)) ;;
    emit (if (S1 <=? sequencing)%Z then
            [issue [73; 74; 75; 76; 77; 78; 79; 80]
               [lit "decreasing sequence number"; lit ""] false
               [lit "number punchcards sequentially"]]
          else []) ;;
    S2 <- lift (py_int sequence) ;;
    ret S2
  else ret sequencing.

(** The body of the loop (lines 92-243) for one statement. *)
Definition validate_line (st : State) : M State :=
  emit charset_issues ;;
  emit length_issues ;;
  if startswith statement (lit "C") then ret st
  else
    emit label_charset_issues ;;
    labels' <- label_rule (labels st) ;;
    emit continuation_issues ;;
    emit sequence_charset_issues ;;
    emit justify_issues ;;
    sequencing' <- sequence_rule (sequencing st) ;;
    ret {| labels := labels'; sequencing := sequencing' |}.
End Statement.

(** The loop over [enumerate(statements)] (lines 91-243). *)
Fixpoint for_each (fp : str) (st : State) (l : list (nat * str)) : M State :=
  match l with
  | [] => ret st
  | (i, statement) :: rest =>
      st' <- validate_line fp (i + 1) statement st ;;
      for_each fp st' rest
  end.

Definition validate (fp : str) (statements : list str) : M State :=
  for_each fp initial (enumerate statements).

(** Lines 245-249: the strings handed to [print], in order. *)
Fixpoint print_all (l : list Issue) : result (list str) :=
  match l with
  | [] => Ok []
  | i :: r =>
      match render i with
      | Raise e => Raise e
      | Ok s =>
          match print_all r with
          | Raise e => Raise e
          | Ok printed => Ok (s :: printed)
          end
      end
  end.

(** The names bound by the main block. *)
Record Env : Type := mkEnv {
  issues : list Issue;
  state : State
}.

(** The main block from line 87 on, for the statements read from the file
    [fp].  Lines 87-90 bind [issues], [labels] and [sequencing] anew,
    whatever they were bound to before; a raise in the loop ends the
    program before anything is printed. *)
Definition main (env : Env) (fp : str) (statements : list str)
  : result (Env * list str) :=
  let env := {| issues := []; state := initial |} in
  match for_each fp (state env) (enumerate statements) with
  | (_, Raise e) => Raise e
  | (appended, Ok st) =>
      let env := {| issues := issues env ++ appended; state := st |} in
      match (if length (issues env) <=? 0 then Ok [lit "No suggestions!"]
             else print_all (issues env)) with
      | Raise e => Raise e
      | Ok printed => Ok (env, printed)
      end
  end.

(** ** Describing diagnostics *)

Fixpoint nat_list_eqb (a b : list nat) : bool :=
  match a, b with
  | [], [] => true
  | x :: a', y :: b' => Nat.eqb x y && nat_list_eqb a' b'
  | _, _ => false
  end.

Fixpoint details_eqb (a b : list str) : bool :=
  match a, b with
  | [], [] => true
  | x :: a', y :: b' => str_eqb x y && details_eqb a' b'
  | _, _ => false
  end.

(** The diagnostic [i] has the severity [sev] ([true] for an error, [false]
    for a warning), spans exactly the columns [columns] and carries the two
    parts [text] of its message. *)
Definition reports (sev : bool) (columns : list nat) (text : list str)
    (i : Issue) : bool :=
  details_eqb (details i) text
  && Bool.eqb (dangerous i) sev
  && nat_list_eqb (cols i) columns.

(** The header line of a rendered diagnostic shows the parts joined. *)
Definition message (i : Issue) : str := join (lit " ") (details i).

Fixpoint count (P : Issue -> bool) (l : list Issue) : nat :=
  match l with
  | [] => 0
  | i :: r => (if P i then 1 else 0) + count P r
  end.

(** The permitted alphabet as the specification lists it: the digits, the
    blank, the upper-case letters and ten symbols. *)
Definition ALPHABET : str :=
  lit "0123456789" ++ lit " " ++ lit "ABCDEFGHIJKLMNOPQRSTUVWXYZ"
    ++ lit "=-+.)$*/,(".

(** The line length of the specification: white space removed at the end
    of the line only. *)
Definition trailing_trimmed_length (statement : str) : nat :=
  length (rstrip statement).

(** ** Notions and inputs of the statements *)

(** [details[0]]. *)
Definition summary (i : Issue) : str :=
  match details i with
  | s :: _ => s
  | [] => []
  end.

Definition charset_text : list str :=
  [lit "statement contains"; lit "illegal character"].

(** The body of the loop of lines 96-108, for one character. *)
Definition per_character (fp : str) (ln : nat) (statement : str)
    (p : nat * ascii) : list Issue :=
  let '(column, c) := p in
  if negb (char_in c CHARSET) then
    [issue fp ln statement [column + 1] charset_text true [lit "try removing"]]
  else [].

(** The first parts of the messages of the rules on the label, the
    continuation and the sequence field. *)
Definition field_summaries : list str :=
  [lit "label field contains"; lit "duplicate label";
   lit "badly ordered labels"; lit "continuation field contains";
   lit "sequence field contains";
   lit "consider left-justifying sequence field";
   lit "decreasing sequence number"].

Definition length_text : list str :=
  [lit "statement exceeds 80 column limit"; lit ""].

(** A line of 82 columns: six blanks, then 76 characters. *)
Definition long_line : str := lit "      X = " ++ times "1" 72.

Definition sequence_charset_text : list str :=
  [lit "sequence field contains"; lit "illegal character"].

(** A line with [  AB] in columns 73 to 76. *)
Definition indented_sequence_line : str :=
  lit "      X = 1" ++ times " " 61 ++ lit "  AB".

Definition justify_text : list str :=
  [lit "consider left-justifying sequence field"; lit ""].

Definition columns_73_80 : list nat := [73; 74; 75; 76; 77; 78; 79; 80].

(** A statement padded with blanks to 80 columns. *)
Definition padded_line : str := lit "      X = 1" ++ times " " 69.

Definition columns_1_5 : list nat := [1; 2; 3; 4; 5].

Definition duplicate_text (declared : nat) : list str :=
  [lit "duplicate label"; lit "already defined on line " ++ str_of_nat declared].

(** The label 10 declared on three lines in a row. *)
Definition thrice_labelled : list str :=
  [lit "   10 X = 1"; lit "   10 Y = 2"; lit "   10 Z = 3"].

(** Among the code points below U+0100, which are the characters of this
    development, those that [isspace] or [isdigit] accept and [int] does
    not: the separators U+001C..U+001F and the superscript digits U+00B2,
    U+00B3 and U+00B9.  Python has more of them above U+00FF (other
    digits that are no decimal digits); they are outside [ascii]. *)
Definition bad (c : ascii) : bool :=
  in_range 28 31 c || in_range 178 179 c || in_range 185 185 c.

Definition clean (s : str) : bool := forallb (fun c => negb (bad c)) s.

(** The value of a string of decimal digits. *)
Definition value (digits : str) : Z :=
  fold_left (fun acc c => (10 * acc + digit_value c)%Z) digits 0%Z.

(** What [transform_loop] makes of one character. *)
Definition tr (c : ascii) : ascii :=
  if (ord c <? 127)%N then c else if py_isspace c then " " else "?".

(** A character at which the digit loop stops and which is no white
    space, sign or underscore. *)
Definition junk (c : ascii) : bool :=
  negb (c_isspace c) && negb (is_decimal c) && negb (Ascii.eqb c "_")
  && negb (Ascii.eqb c "+") && negb (Ascii.eqb c "-").

(** The digit loop stops at the end of the string and at a character that
    is neither a digit nor an underscore. *)
Definition stops (rest : str) : Prop :=
  match rest with
  | [] => True
  | c :: _ => is_decimal c = false /\ Ascii.eqb c "_" = false
  end.


(** A statement with the sequence number 10 in columns 73 to 80. *)
Definition numbered_line : str :=
  lit "      X = 1" ++ times " " 61 ++ lit "00000010".

(** A file whose second statement has the superscript two, U+00B2, as its
    label, and a statement with the separator U+001C before its sequence
    number. *)
Definition superscript_label : list str :=
  [lit "      X = 1"; chr 178 :: lit "     Y = 2"].

Definition separator_sequence : list str :=
  [lit "C NUMBERED"; lit "      X = 1" ++ times " " 61 ++ chr 28 :: lit "0000010"].

(** What [__str__] reads by subscript is there: a first column and a second
    part of the message. *)
Definition renderable (i : Issue) : Prop :=
  cols i <> [] /\ length (details i) = 2.

(** The diagnostic [i] has [text] as the first part of its message. *)
Definition has_summary (text : str) (i : Issue) : bool :=
  str_eqb (summary i) text.

Definition label_charset_text : list str :=
  [lit "label field contains"; lit "illegal character"].

Definition continuation_text : list str :=
  [lit "continuation field contains"; lit "illegal character"].

(** The body of the loops of lines 96, 140 and 206, for one character:
    [set] is the string the character is looked up in and [column_of]
    gives the reported column. *)
Definition character_issue (fp : str) (ln : nat) (statement : str)
    (set : str) (column_of : nat -> nat) (text : list str) (sev : bool)
    (p : nat * ascii) : list Issue :=
  let '(column, c) := p in
  if negb (char_in c set) then
    [issue fp ln statement [column_of column] text sev [lit "try removing"]]
  else [].

(** The test of line 191 on the character [c] of column 6: it is no white
    space and does not occur in ["*!23456789"]. *)
Definition bad_continuation (c : ascii) : bool :=
  negb (py_isspace c) && negb (char_in c (lit "*!23456789")).

(** A statement with [0] in column 6, and one with a letter in its
    sequence field. *)
Definition zero_continuation_line : str := lit "     0X = 1".

Definition lettered_sequence_line : str :=
  lit "      X = 1" ++ times " " 61 ++ lit "00A10".

(** A line of 83 characters that starts in column 1. *)
Definition long_comment_free_line : str := lit "10   " ++ times "9" 78.

(** The statement [s] declares the label [L]: it is no comment and its
    label field passes the test of line 154 and converts to [L]. *)
Definition declares (s : str) (L : Z) : Prop :=
  startswith s (lit "C") = false
  /\ truthy (strip (label s)) && isdigit (strip (label s)) = true
  /\ py_int (label s) = Ok L.

Definition badly_ordered_text (largest : Z) : list str :=
  [lit "badly ordered labels"; lit "previous was " ++ str_of_Z largest].

(** Statements that declare the labels 10, 30 and 20, in this order. *)
Definition misordered : list str :=
  [lit "   10 X = 1"; lit "   30 Y = 2"; lit "   20 Z = 3"].

(** The gutter of a rendered diagnostic of line [n]. *)
Definition gutter (n : nat) : str := lit " " ++ str_of_nat n ++ lit " | ".

(** A diagnostic of the kind the validator builds for a span of columns. *)
Definition sample_issue : Issue :=
  issue (lit "prog.f") 12 (lit "   10 X = 1") [7; 8; 9]
    [lit "statement contains"; lit "illegal character"] true
    [lit "try removing"].

(** The line feed. *)
Definition newline : ascii := chr 10.

(** [s.split("\n")]. *)
Fixpoint split_newline (s : str) : list str :=
  match s with
  | [] => [[]]
  | c :: r =>
      if Ascii.eqb c newline then [] :: split_newline r
      else match split_newline r with
           | x :: xs => (c :: x) :: xs
           | [] => [[c]]
           end
  end.

(** Line 85, for the text [fh.read()] returns. *)
Definition read_statements (text : str) : list str :=
  split_newline (strip text).

(** The program from line 83 on, for a file named [fp] with the text
    [text]. *)
Definition run (env : Env) (fp : str) (text : str) : result (Env * list str) :=
  main env fp (read_statements text).

(** The first parts of the messages of the errors; the other diagnostics
    are warnings. *)
Definition error_summaries : list str :=
  [lit "statement contains"; lit "label field contains"; lit "duplicate label"].

(** The text of two statements. *)
Definition two_statements : str :=
  lit "   10 X = 1" ++ [newline] ++ lit "   10 Y = 2".

(** A file with a lower-case letter on its second line. *)
Definition lower_case_file : list str := [lit "C TITLE"; lit "      X = a"].

(** A statement with the separator U+001C before the seven digits of its
    sequence field. *)
Definition separator_line : str :=
  lit "      X = 1" ++ times " " 61 ++ chr 28 :: lit "0000010".

(** An ASCII character other than the separators U+001C..U+001F. *)
Definition plain (c : ascii) : bool :=
  (ord c <? 128)%N && negb (in_range 28 31 c).

(** The string holds one of the separators U+001C..U+001F. *)
Definition has_separator (x : str) : bool := existsb (in_range 28 31) x.

(** The string holds no line feed. *)
Definition newline_free (x : str) : Prop := ~ In newline x.

(** The first line of a rendered diagnostic whose first column is [c0]
    (lines 52-62), without its line feed. *)
Definition render_header (i : Issue) (c0 : nat) : str :=
  ANSI.BOLD ++ fp i ++ lit ":" ++ str_of_nat (ln i) ++ lit ":"
    ++ str_of_nat c0 ++ ANSI.RESET ++ lit ": "
    ++ (if dangerous i then ANSI.RED else ANSI.YELLOW)
    ++ (if dangerous i then lit "error" else lit "warning")
    ++ ANSI.RESET ++ lit ": " ++ join (lit " ") (details i).

(** What stands before the caret in the third line (lines 49, 64 and 66):
    the spacer and [c0 - 1] blanks. *)
Definition before_caret (n c0 : nat) : str :=
  (times " " (length (gutter n) - 2) ++ lit "| ") ++ times " " (c0 - 1).

(** The third line of a rendered diagnostic of line [n] that spans [c0] and
    [further] more columns and has [b] as the second part of its message
    (lines 64-69), without its line feed. *)
Definition render_underline (n c0 further : nat) (b : str) : str :=
  before_caret n c0 ++ lit "^" ++ times "~" further ++ lit " " ++ b.

(** ** General lemmas *)

Lemma startswith_nil (s : str) : startswith s [] = true.
Proof. now destruct s. Qed.

Lemma str_eqb_refl (a : str) : str_eqb a a = true.
Proof.
  induction a as [|x a IH]; simpl; [reflexivity|].
  now rewrite Ascii.eqb_refl.
Qed.

Lemma str_eqb_eq (a b : str) : str_eqb a b = true <-> a = b.
Proof.
  split; [|intros ->; apply str_eqb_refl].
  revert b; induction a as [|x a IH]; intros [|y b]; simpl; try easy.
  destruct (Ascii.eqb x y) eqn:E; [|easy].
  apply Ascii.eqb_eq in E. intros H. f_equal; auto.
Qed.

Lemma nat_list_eqb_eq (a b : list nat) : nat_list_eqb a b = true <-> a = b.
Proof.
  revert b; induction a as [|x a IH]; intros [|y b]; simpl; try easy.
  rewrite andb_true_iff, Nat.eqb_eq, IH. split.
  - intros [-> ->]; reflexivity.
  - intros [= -> ->]; auto.
Qed.

Lemma details_eqb_eq (a b : list str) : details_eqb a b = true <-> a = b.
Proof.
  revert b; induction a as [|x a IH]; intros [|y b]; simpl; try easy.
  rewrite andb_true_iff, str_eqb_eq, IH. split.
  - intros [-> ->]; reflexivity.
  - intros [= -> ->]; auto.
Qed.

Lemma reports_spec sev columns text i :
  reports sev columns text i = true
  <-> details i = text /\ dangerous i = sev /\ cols i = columns.
Proof.
  unfold reports.
  rewrite !andb_true_iff, details_eqb_eq, nat_list_eqb_eq, Bool.eqb_true_iff.
  tauto.
Qed.

Lemma reports_message sev columns (a b : str) i :
  reports sev columns [a; b] i = true -> message i = a ++ lit " " ++ b.
Proof.
  rewrite reports_spec. intros (H & _). unfold message. now rewrite H.
Qed.

Lemma reports_issue fp ln statement sev columns text suggestions :
  reports sev columns text (issue fp ln statement columns text sev suggestions)
  = true.
Proof. now apply reports_spec. Qed.

Lemma count_app P (a b : list Issue) : count P (a ++ b) = count P a + count P b.
Proof. induction a as [|x a IH]; simpl; [reflexivity|]. rewrite IH. lia. Qed.

Lemma count_none P (l : list Issue) :
  (forall i, In i l -> P i = false) -> count P l = 0.
Proof.
  induction l as [|x l IH]; simpl; intros H; [reflexivity|].
  rewrite (H x), IH by auto. reflexivity.
Qed.

(** What a statement appends, rule by rule. *)
Lemma validate_line_issues fp ln statement st :
  fst (validate_line fp ln statement st)
  = charset_issues fp ln statement ++ length_issues fp ln statement
    ++ (if startswith statement (lit "C") then []
        else label_charset_issues fp ln statement
          ++ fst (label_rule fp ln statement (labels st))
          ++ match snd (label_rule fp ln statement (labels st)) with
             | Raise _ => []
             | Ok _ =>
                 continuation_issues fp ln statement
                 ++ sequence_charset_issues fp ln statement
                 ++ justify_issues fp ln statement
                 ++ fst (sequence_rule fp ln statement (sequencing st))
             end).
Proof.
  unfold validate_line, bind, emit, ret.
  destruct (startswith statement (lit "C")); simpl.
  - now rewrite !app_nil_r.
  - destruct (label_rule fp ln statement (labels st)) as [o1 [l1|e1]]; simpl.
    + destruct (sequence_rule fp ln statement (sequencing st)) as [o2 [s2|e2]];
        simpl; now rewrite ?app_nil_r.
    + now rewrite ?app_nil_r.
Qed.

Lemma validate_line_outcome fp ln statement st :
  snd (validate_line fp ln statement st)
  = if startswith statement (lit "C") then Ok st
    else match snd (label_rule fp ln statement (labels st)) with
         | Raise e => Raise e
         | Ok labels' =>
             match snd (sequence_rule fp ln statement (sequencing st)) with
             | Raise e => Raise e
             | Ok sequencing' =>
                 Ok {| labels := labels'; sequencing := sequencing' |}
             end
         end.
Proof.
  unfold validate_line, bind, emit, ret.
  destruct (startswith statement (lit "C")); simpl; [reflexivity|].
  destruct (label_rule fp ln statement (labels st)) as [o1 [l1|e1]]; simpl;
    [|reflexivity].
  destruct (sequence_rule fp ln statement (sequencing st)) as [o2 [s2|e2]];
    reflexivity.
Qed.

Lemma in_enumerate_from {A} (l : list A) (off k : nat) (x : A) :
  In (k, x) (enumerate_from off l) <-> off <= k /\ nth_error l (k - off) = Some x.
Proof.
  revert off; induction l as [|y l IH]; intros off; simpl.
  - split; [easy|]. intros [_ H]. now destruct (k - off).
  - rewrite IH. split.
    + intros [[= <- <-] | [Hle Hn]].
      * rewrite Nat.sub_diag. auto.
      * split; [lia|]. replace (k - off) with (S (k - S off)) by lia. exact Hn.
    + intros [Hle Hn]. destruct (k - off) as [|d] eqn:E.
      * left. injection Hn as ->. f_equal. lia.
      * right. split; [lia|]. replace (k - S off) with d by lia. exact Hn.
Qed.

Lemma in_enumerate {A} (l : list A) (k : nat) (x : A) :
  In (k, x) (enumerate l) <-> nth_error l k = Some x.
Proof.
  unfold enumerate. rewrite in_enumerate_from, Nat.sub_0_r.
  split; [tauto | intros H; split; [lia | exact H]].
Qed.

(** *** The first part of the message tells the rules apart *)

Lemma reports_summary sev columns text i :
  reports sev columns text i = true -> summary i = hd [] text.
Proof.
  rewrite reports_spec. intros (H & _). unfold summary. now rewrite H.
Qed.

Lemma count_other_rule names sev columns text (l : list Issue) :
  (forall i, In i l -> In (summary i) names) ->
  ~ In (hd [] text) names ->
  count (reports sev columns text) l = 0.
Proof.
  intros Hl Hn. apply count_none. intros i Hi.
  destruct (reports sev columns text i) eqn:E; [|reflexivity].
  apply reports_summary in E. rewrite <- E in Hn. now apply Hl in Hi.
Qed.

Section Summaries.
Variables (fp : str) (ln : nat) (statement : str).

Lemma summary_charset i :
  In i (charset_issues fp ln statement) ->
  In (summary i) [lit "statement contains"].
Proof.
  unfold charset_issues. rewrite in_flat_map. intros ([k c] & _ & H).
  destruct (negb (char_in c CHARSET)); [|easy].
  destruct H as [<- | []]. now left.
Qed.

Lemma summary_length i :
  In i (length_issues fp ln statement) ->
  In (summary i) [lit "statement exceeds 80 column limit"].
Proof.
  unfold length_issues. destruct (80 <? _); [|easy].
  intros [<- | []]. now left.
Qed.

Lemma summary_label_charset i :
  In i (label_charset_issues fp ln statement) ->
  In (summary i) [lit "label field contains"].
Proof.
  unfold label_charset_issues. rewrite in_flat_map. intros ([k c] & _ & H).
  destruct (negb (char_in c _)); [|easy].
  destruct H as [<- | []]. now left.
Qed.

Lemma summary_label_rule labels i :
  In i (fst (label_rule fp ln statement labels)) ->
  In (summary i) [lit "duplicate label"; lit "badly ordered labels"].
Proof.
  unfold label_rule, bind, lift, emit, ret.
  destruct (truthy _ && isdigit _); [|easy].
  destruct (py_int (label statement)) as [L|e]; [|easy]. simpl.
  rewrite app_nil_r.
  destruct (labels !! L) as [declared|].
  - intros [<- | []]. now left.
  - destruct (_ && _); [|easy]. intros [<- | []]. right; now left.
Qed.

Lemma summary_continuation i :
  In i (continuation_issues fp ln statement) ->
  In (summary i) [lit "continuation field contains"].
Proof.
  unfold continuation_issues. destruct (_ && _); [|easy].
  intros [<- | []]. now left.
Qed.

Lemma summary_sequence_charset i :
  In i (sequence_charset_issues fp ln statement) ->
  In (summary i) [lit "sequence field contains"].
Proof.
  unfold sequence_charset_issues. rewrite in_flat_map.
  intros ([k c] & _ & H).
  destruct (negb (char_in c _)); [|easy].
  destruct H as [<- | []]. now left.
Qed.

Lemma summary_justify i :
  In i (justify_issues fp ln statement) ->
  In (summary i) [lit "consider left-justifying sequence field"].
Proof.
  unfold justify_issues. destruct (_ && _); [|easy].
  intros [<- | []]. now left.
Qed.

Lemma summary_sequence_rule sequencing i :
  In i (fst (sequence_rule fp ln statement sequencing)) ->
  In (summary i) [lit "decreasing sequence number"].
Proof.
  unfold sequence_rule, bind, lift, emit, ret.
  destruct (truthy _ && isdigit _); [|easy].
  destruct (py_int (strip (sequence statement))) as [S1|e]; [|easy]. simpl.
  destruct (py_int (sequence statement)) as [S2|e]; simpl;
    rewrite ?app_nil_r; (destruct (S1 <=? sequencing)%Z; [|easy]);
    intros [<- | []]; now left.
Qed.
End Summaries.

(** Closes a goal [~ In s names] for literal strings. *)
Ltac other_summary :=
  let H := fresh in
  intros H; vm_compute in H;
  repeat (destruct H as [H | H]; [discriminate H|]); exact H.

(** ** The character set rule *)

Lemma ALPHABET_CHARSET (c : ascii) : char_in c ALPHABET = char_in c CHARSET.
Proof. destruct c as [[] [] [] [] [] [] [] []]; reflexivity. Qed.

Lemma ALPHABET_47 : length ALPHABET = 47 /\ List.NoDup ALPHABET.
Proof.
  split; [reflexivity|].
  apply (proj2 (List.NoDup_count_occ ascii_dec ALPHABET)). intros c.
  destruct c as [[] [] [] [] [] [] [] []]; vm_compute; lia.
Qed.

Lemma charset_count_before fp ln statement (l : str) (off j : nat) :
  j <= off ->
  count (reports true [j] charset_text)
    (flat_map (per_character fp ln statement) (enumerate_from off l)) = 0.
Proof.
  intros Hj. apply count_none. intros i. rewrite in_flat_map.
  intros ([k c] & Hk & Hi). apply in_enumerate_from in Hk as [Hk _].
  unfold per_character in Hi.
  destruct (negb (char_in c CHARSET)); [|destruct Hi].
  destruct Hi as [<- | []].
  destruct (reports _ _ _ _) eqn:E; [|reflexivity].
  apply reports_spec in E as (_ & _ & E). simpl in E.
  injection E as E. lia.
Qed.

Lemma charset_count_at fp ln statement (l : str) (off column : nat) (c : ascii) :
  nth_error l column = Some c ->
  count (reports true [off + column + 1] charset_text)
    (flat_map (per_character fp ln statement) (enumerate_from off l))
  = if char_in c CHARSET then 0 else 1.
Proof.
  revert off column. induction l as [|x l IH]; intros off column Hc.
  - now destruct column.
  - cbn [enumerate_from flat_map]. rewrite count_app.
    destruct column as [|n]; simpl in Hc.
    + injection Hc as ->.
      rewrite (charset_count_before fp ln statement l (S off)) by lia.
      replace (off + 0 + 1) with (off + 1) by lia. unfold per_character.
      destruct (char_in c CHARSET); [reflexivity|].
      cbn [negb count]. now rewrite reports_issue.
    + replace (off + S n + 1) with (S off + n + 1) by lia.
      rewrite (IH (S off) n Hc).
      replace (count _ (per_character fp ln statement (off, x))) with 0;
        [reflexivity|].
      symmetry. apply count_none. intros i Hi. unfold per_character in Hi.
      destruct (negb (char_in x CHARSET)); [|destruct Hi].
      destruct Hi as [<- | []].
      destruct (reports _ _ _ _) eqn:E; [|reflexivity].
      apply reports_spec in E as (_ & _ & E). simpl in E.
      injection E as E. lia.
Qed.

Lemma charset_issues_count fp ln statement column c :
  nth_error statement column = Some c ->
  count (reports true [column + 1] charset_text)
    (charset_issues fp ln statement)
  = if char_in c CHARSET then 0 else 1.
Proof.
  intros H. apply (charset_count_at fp ln statement statement 0 column c H).
Qed.

(** The diagnostics of the other rules are no character set diagnostics. *)
Lemma other_rules_no_charset fp ln statement st columns :
  count (reports true columns charset_text) (fst (validate_line fp ln statement st))
  = count (reports true columns charset_text) (charset_issues fp ln statement).
Proof.
  rewrite validate_line_issues, !count_app.
  rewrite (count_other_rule _ _ _ _ _ (summary_length fp ln statement))
    by other_summary.
  destruct (startswith statement (lit "C")); simpl; [lia|].
  rewrite !count_app.
  rewrite (count_other_rule _ _ _ _ _ (summary_label_charset fp ln statement))
    by other_summary.
  rewrite (count_other_rule _ _ _ _ _
             (summary_label_rule fp ln statement (labels st)))
    by other_summary.
  destruct (snd (label_rule fp ln statement (labels st))); simpl; [|lia].
  rewrite !count_app.
  rewrite (count_other_rule _ _ _ _ _ (summary_continuation fp ln statement))
    by other_summary.
  rewrite (count_other_rule _ _ _ _ _
             (summary_sequence_charset fp ln statement))
    by other_summary.
  rewrite (count_other_rule _ _ _ _ _ (summary_justify fp ln statement))
    by other_summary.
  rewrite (count_other_rule _ _ _ _ _
             (summary_sequence_rule fp ln statement (sequencing st)))
    by other_summary.
  lia.
Qed.

Lemma validate_line_charset_count fp ln statement st column c :
  nth_error statement column = Some c ->
  count (reports true [column + 1] charset_text)
    (fst (validate_line fp ln statement st))
  = if char_in c CHARSET then 0 else 1.
Proof.
  intros H. rewrite other_rules_no_charset. now apply charset_issues_count.
Qed.

(** C5.  For every line, comment or not, and every character [c] of it,
    at the 0-based position [column]: the diagnostics appended for the
    line hold exactly one error spanning the column [column + 1] alone
    with the message "statement contains illegal character" when [c] is
    not one of the 47 characters of the permitted alphabet (digits, blank,
    upper-case letters, and the symbols [= - + . ) $ * / , (]), and none
    when it is.  [CHARSET] has the members of that alphabet, which has 47
    characters, all different. *)
Theorem C5_charset_rule fp ln statement st column c :
  nth_error statement column = Some c ->
  count (reports true [column + 1]
           [lit "statement contains"; lit "illegal character"])
    (fst (validate_line fp ln statement st))
  = (if char_in c ALPHABET then 0 else 1)
  /\ (forall a, char_in a CHARSET = char_in a ALPHABET)
  /\ length ALPHABET = 47 /\ List.NoDup ALPHABET.
Proof.
  intros H. split; [|split; [|exact ALPHABET_47]].
  - rewrite ALPHABET_CHARSET. now apply validate_line_charset_count.
  - intros a. symmetry. apply ALPHABET_CHARSET.
Qed.

Lemma C5_charset_rule_witness :
  nth_error (lit "      X = a") 10 = Some "a"%char
  /\ count (reports true [11]
              [lit "statement contains"; lit "illegal character"])
       (fst (validate_line (lit "prog.f") 1 (lit "      X = a") initial))
     = 1.
Proof.
  split; [reflexivity|].
  exact (proj1 (C5_charset_rule (lit "prog.f") 1 (lit "      X = a") initial
                  10 "a"%char eq_refl)).
Defined.

(** ** Comment lines *)

(** C8.  For a line that starts with the comment marker [C], the
    diagnostics appended are those of the character set rule followed by
    those of the line length rule and nothing else: none of them carries a
    message of a rule on the label, continuation or sequence field.  The
    line is processed without a raise and leaves the label table and the
    sequence cursor as they were. *)
Theorem C8_comment_lines fp ln statement st :
  startswith statement (lit "C") = true ->
  validate_line fp ln statement st
  = (charset_issues fp ln statement ++ length_issues fp ln statement, Ok st)
  /\ (forall i, In i (fst (validate_line fp ln statement st)) ->
        (summary i = lit "statement contains"
         \/ summary i = lit "statement exceeds 80 column limit")
        /\ ~ In (summary i) field_summaries).
Proof.
  intros Hc.
  assert (E : validate_line fp ln statement st
              = (charset_issues fp ln statement ++ length_issues fp ln statement,
                 Ok st)).
  { rewrite (surjective_pairing (validate_line fp ln statement st)).
    rewrite validate_line_issues, validate_line_outcome, Hc.
    now rewrite app_nil_r. }
  split; [exact E|].
  intros i. rewrite E. cbn [fst]. rewrite in_app_iff.
  assert (H : forall s, s = lit "statement contains"
                        \/ s = lit "statement exceeds 80 column limit" ->
                        ~ In s field_summaries).
  { intros s [-> | ->]; other_summary. }
  intros [Hi | Hi].
  - apply summary_charset in Hi as [Hi | []]. split; [|apply H]; auto.
  - apply summary_length in Hi as [Hi | []]. split; [|apply H]; auto.
Qed.

Lemma C8_comment_lines_witness :
  startswith (lit "C THIS IS a COMMENT") (lit "C") = true
  /\ validate_line (lit "prog.f") 3 (lit "C THIS IS a COMMENT")
       {| labels := {[ 10%Z := 1 ]}; sequencing := 20 |}
     = (charset_issues (lit "prog.f") 3 (lit "C THIS IS a COMMENT")
          ++ length_issues (lit "prog.f") 3 (lit "C THIS IS a COMMENT"),
        Ok {| labels := {[ 10%Z := 1 ]}; sequencing := 20 |}).
Proof.
  split; [reflexivity|].
  exact (proj1 (C8_comment_lines (lit "prog.f") 3 (lit "C THIS IS a COMMENT")
                  {| labels := {[ 10%Z := 1 ]}; sequencing := 20 |} eq_refl)).
Defined.

(** ** The continuation marker [!] *)

Lemma slice_5_6 (statement : str) (c : ascii) :
  nth_error statement 5 = Some c -> slice 5 6 statement = [c].
Proof.
  unfold slice.
  destruct statement as [|c0 [|c1 [|c2 [|c3 [|c4 [|c5 r]]]]]]; try discriminate.
  simpl. now intros [= ->].
Qed.

(** C10.  The mark [!] is accepted by the continuation rule and is not in
    the permitted alphabet: a line that is no comment and has [!] in
    column 6 gets no diagnostic of the continuation rule, and gets exactly
    one error spanning column 6 with the message "statement contains
    illegal character". *)
Theorem C10_bang_continuation fp ln statement st :
  startswith statement (lit "C") = false ->
  nth_error statement 5 = Some "!"%char ->
  char_in "!" CHARSET = false
  /\ char_in "!" ALPHABET = false
  /\ continuation_issues fp ln statement = []
  /\ count (reports true [6]
              [lit "statement contains"; lit "illegal character"])
       (fst (validate_line fp ln statement st)) = 1.
Proof.
  intros _ H. repeat split; try reflexivity.
  - unfold continuation_issues, continuation. now rewrite (slice_5_6 _ _ H).
  - exact (validate_line_charset_count fp ln statement st 5 "!"%char H).
Qed.

Lemma C10_bang_continuation_witness :
  startswith (lit "     !    + 1") (lit "C") = false
  /\ nth_error (lit "     !    + 1") 5 = Some "!"%char
  /\ continuation_issues (lit "prog.f") 2 (lit "     !    + 1") = []
  /\ count (reports true [6]
              [lit "statement contains"; lit "illegal character"])
       (fst (validate_line (lit "prog.f") 2 (lit "     !    + 1") initial)) = 1.
Proof.
  split; [reflexivity|]. split; [reflexivity|].
  exact (proj2 (proj2 (C10_bang_continuation (lit "prog.f") 2
                         (lit "     !    + 1") initial eq_refl eq_refl))).
Defined.

(** ** Counting the diagnostics of one rule *)

Lemma count_by_rule P fp ln statement st :
  count P (fst (validate_line fp ln statement st))
  = count P (charset_issues fp ln statement)
    + count P (length_issues fp ln statement)
    + (if startswith statement (lit "C") then 0
       else count P (label_charset_issues fp ln statement)
            + count P (fst (label_rule fp ln statement (labels st)))
            + match snd (label_rule fp ln statement (labels st)) with
              | Raise _ => 0
              | Ok _ =>
                  count P (continuation_issues fp ln statement)
                  + count P (sequence_charset_issues fp ln statement)
                  + count P (justify_issues fp ln statement)
                  + count P (fst (sequence_rule fp ln statement (sequencing st)))
              end).
Proof.
  rewrite validate_line_issues, !count_app.
  destruct (startswith statement (lit "C")); [simpl; lia|].
  rewrite !count_app.
  destruct (snd (label_rule fp ln statement (labels st)));
    rewrite ?count_app; simpl; lia.
Qed.

(** Rewrites to 0 the counts over the rules that cannot have produced the
    diagnostic looked for. *)
Ltac other_rules :=
  repeat match goal with
    | |- context [count (reports ?s ?c ?t) (charset_issues ?fp ?ln ?st)] =>
        rewrite (count_other_rule _ s c t _ (summary_charset fp ln st))
          by other_summary
    | |- context [count (reports ?s ?c ?t) (length_issues ?fp ?ln ?st)] =>
        rewrite (count_other_rule _ s c t _ (summary_length fp ln st))
          by other_summary
    | |- context [count (reports ?s ?c ?t) (label_charset_issues ?fp ?ln ?st)] =>
        rewrite (count_other_rule _ s c t _ (summary_label_charset fp ln st))
          by other_summary
    | |- context [count (reports ?s ?c ?t) (fst (label_rule ?fp ?ln ?st ?l))] =>
        rewrite (count_other_rule _ s c t _ (summary_label_rule fp ln st l))
          by other_summary
    | |- context [count (reports ?s ?c ?t) (continuation_issues ?fp ?ln ?st)] =>
        rewrite (count_other_rule _ s c t _ (summary_continuation fp ln st))
          by other_summary
    | |- context [count (reports ?s ?c ?t)
                    (sequence_charset_issues ?fp ?ln ?st)] =>
        rewrite (count_other_rule _ s c t _
                   (summary_sequence_charset fp ln st))
          by other_summary
    | |- context [count (reports ?s ?c ?t) (justify_issues ?fp ?ln ?st)] =>
        rewrite (count_other_rule _ s c t _ (summary_justify fp ln st))
          by other_summary
    | |- context [count (reports ?s ?c ?t) (fst (sequence_rule ?fp ?ln ?st ?q))] =>
        rewrite (count_other_rule _ s c t _ (summary_sequence_rule fp ln st q))
          by other_summary
    end.

(** ** The line length rule *)

(** C3, at a line with leading blanks.  [long_line] has 82 characters once
    the white space at its end is removed, so it exceeds the limit by two
    columns; [length_issues] measures the line with the white space at its
    start removed as well, finds 76 and appends nothing.  Read as the
    second line of a file, the line gets no diagnostic at all. *)
Theorem C3_length_rule_leading_blanks :
  trailing_trimmed_length long_line = 82
  /\ length (strip long_line) = 76
  /\ length_issues (lit "prog.f") 2 long_line = []
  /\ fst (validate (lit "prog.f") [lit "C LONG LINE"; long_line]) = [].
Proof. vm_compute. auto. Qed.

(** ** The sequence field *)

(** C4, at a sequence field with leading blanks.  The letters [A] and [B]
    stand in columns 75 and 76 of [indented_sequence_line]; the rule
    numbers the characters of the field from 73 after removing the blanks
    in front of them, and reports columns 73 and 74, where the line has
    blanks.  Read as the second line of a file, the line gets these two
    warnings and the one on justification. *)
Theorem C4_sequence_charset_leading_blanks :
  nth_error indented_sequence_line 74 = Some "A"%char
  /\ nth_error indented_sequence_line 75 = Some "B"%char
  /\ nth_error indented_sequence_line 72 = Some " "%char
  /\ nth_error indented_sequence_line 73 = Some " "%char
  /\ map (fun i => (ln i, cols i, details i, dangerous i))
       (fst (validate (lit "prog.f") [lit "C SEQUENCE"; indented_sequence_line]))
     = [(2, [73], sequence_charset_text, false);
        (2, [74], sequence_charset_text, false);
        (2, columns_73_80, justify_text, false)]
  /\ count (reports false [75] sequence_charset_text)
       (fst (validate_line (lit "prog.f") 2 indented_sequence_line initial)) = 0
  /\ count (reports false [76] sequence_charset_text)
       (fst (validate_line (lit "prog.f") 2 indented_sequence_line initial)) = 0.
Proof. vm_compute. repeat split. Qed.

(** C7 fails for a line whose columns 73 to 80 hold blanks: [padded_line]
    is no comment, its sequence field is eight blanks, and the rule
    appends its warning. *)
Lemma C7_blank_sequence_field_counterexample :
  ~ (forall fp ln statement st,
       startswith statement (lit "C") = false ->
       slice 72 80 statement = times " " 8 ->
       count (reports false columns_73_80 justify_text)
         (fst (validate_line fp ln statement st)) = 0).
Proof.
  intros H.
  specialize (H (lit "prog.f") 1 padded_line initial eq_refl eq_refl).
  vm_compute in H. discriminate H.
Qed.

Lemma sequence_first (statement : str) :
  truthy (sequence statement) && startswith (sequence statement) (lit " ")
  = match nth_error statement 72 with
    | Some c => Ascii.eqb " " c
    | None => false
    end.
Proof.
  unfold sequence, slice. rewrite <- (hd_error_skipn 72 statement).
  destruct (skipn 72 statement) as [|c r]; simpl; [reflexivity|].
  now rewrite startswith_nil, andb_true_r.
Qed.

(** C7, amended.  For a line that is no comment and is processed without a
    raise, the warning "consider left-justifying sequence field" spanning
    columns 73 to 80 is appended, once, if and only if the line has a
    character in column 73 and that character is a blank; in particular a
    line that ends before column 73 gets no such warning. *)
Theorem C7_left_justify fp ln statement st st' :
  startswith statement (lit "C") = false ->
  snd (validate_line fp ln statement st) = Ok st' ->
  count (reports false columns_73_80 justify_text)
    (fst (validate_line fp ln statement st))
  = (if truthy (sequence statement) && startswith (sequence statement) (lit " ")
     then 1 else 0)
  /\ (count (reports false columns_73_80 justify_text)
        (fst (validate_line fp ln statement st)) = 1
      <-> nth_error statement 72 = Some " "%char)
  /\ (length statement <= 72 ->
      count (reports false columns_73_80 justify_text)
        (fst (validate_line fp ln statement st)) = 0).
Proof.
  intros Hc Hok.
  rewrite validate_line_outcome, Hc in Hok.
  assert (E : count (reports false columns_73_80 justify_text)
                (fst (validate_line fp ln statement st))
              = if truthy (sequence statement)
                   && startswith (sequence statement) (lit " ")
                then 1 else 0).
  { rewrite count_by_rule, Hc.
    destruct (snd (label_rule fp ln statement (labels st))); [|discriminate].
    other_rules. unfold justify_issues.
    destruct (truthy _ && startswith _ _); [|reflexivity].
    cbn [count]. unfold justify_text, columns_73_80.
    now rewrite reports_issue. }
  rewrite E, sequence_first. repeat split.
  - destruct (nth_error statement 72) as [c|]; [|discriminate].
    destruct (Ascii.eqb " " c) eqn:Ec; [|discriminate].
    apply Ascii.eqb_eq in Ec. now subst.
  - intros ->. reflexivity.
  - intros Hl. now rewrite (proj2 (nth_error_None statement 72) Hl).
Qed.

Lemma C7_left_justify_witness :
  startswith padded_line (lit "C") = false
  /\ snd (validate_line (lit "prog.f") 1 padded_line initial) = Ok initial
  /\ count (reports false columns_73_80 justify_text)
       (fst (validate_line (lit "prog.f") 1 padded_line initial))
     = (if truthy (sequence padded_line)
           && startswith (sequence padded_line) (lit " ")
        then 1 else 0).
Proof.
  split; [reflexivity|]. split; [reflexivity|].
  exact (proj1 (C7_left_justify (lit "prog.f") 1 padded_line initial initial
                  eq_refl eq_refl)).
Defined.

(** ** The label rule *)


Lemma label_rule_numeric fp ln statement labels L :
  truthy (strip (label statement)) && isdigit (strip (label statement)) = true ->
  py_int (label statement) = Ok L ->
  label_rule fp ln statement labels
  = (match labels !! L with
     | Some declared =>
         [issue fp ln statement columns_1_5 (duplicate_text declared) true
            [lit "try relabelling"]]
     | None =>
         if (1 <=? size labels)
            && match max_key labels with
               | Some largest => (L <? largest)%Z
               | None => false
               end
         then
           [issue fp ln statement columns_1_5
              [lit "badly ordered labels";
               lit "previous was "
                 ++ match max_key labels with
                    | Some largest => str_of_Z largest
                    | None => []
                    end]
              false [lit "label statements sequentially"]]
         else []
     end, Ok (<[L := ln]> labels)).
Proof.
  intros Hd Hi. unfold label_rule. rewrite Hd, Hi.
  unfold bind, lift, emit, ret. cbn [app]. now rewrite app_nil_r.
Qed.



(** ** [int] on a field that passed [isdigit] *)

Ltac each_character c :=
  destruct c as [[] [] [] [] [] [] [] []]; vm_compute;
  repeat split; intros; try reflexivity; try discriminate.

Lemma space_clean c :
  py_isspace c = true -> bad c = false ->
  ((ord c <? 127)%N || py_isspace c = true) /\ c_isspace (tr c) = true.
Proof. each_character c. Qed.

Lemma space_bad c :
  py_isspace c = true -> bad c = true ->
  (ord c <? 127)%N = true /\ junk c = true.
Proof. each_character c. Qed.

Lemma digit_clean c :
  py_isdigit_char c = true -> bad c = false ->
  is_decimal c = true /\ (ord c <? 127)%N = true.
Proof. each_character c. Qed.

Lemma digit_bad c :
  py_isdigit_char c = true -> bad c = true ->
  (ord c <? 127)%N = false /\ py_isspace c = false.
Proof. each_character c. Qed.

Lemma decimal_plain c :
  is_decimal c = true ->
  c_isspace c = false /\ Ascii.eqb c "_" = false
  /\ Ascii.eqb c "+" = false /\ Ascii.eqb c "-" = false.
Proof. each_character c. Qed.

Lemma junk_plain c :
  junk c = true ->
  c_isspace c = false /\ is_decimal c = false /\ Ascii.eqb c "_" = false
  /\ Ascii.eqb c "+" = false /\ Ascii.eqb c "-" = false.
Proof. each_character c. Qed.

Lemma c_space_plain c :
  c_isspace c = true -> is_decimal c = false /\ Ascii.eqb c "_" = false.
Proof. each_character c. Qed.

Lemma field_character_ascii c :
  py_isspace c || py_isdigit_char c = true -> (ord c <? 128)%N = true ->
  (ord c <? 127)%N = true.
Proof. each_character c. Qed.

Lemma low_tr c : (ord c <? 127)%N = true -> tr c = c.
Proof. unfold tr. now intros ->. Qed.

(** *** The transformation *)

Lemma transform_loop_low (s : str) :
  forallb (fun c => (ord c <? 127)%N) s = true -> transform_loop s = s.
Proof.
  induction s as [|c s IH]; simpl; [reflexivity|].
  rewrite andb_true_iff. intros [-> H]. now rewrite IH.
Qed.

Lemma transform_field (s : str) :
  forallb (fun c => py_isspace c || py_isdigit_char c) s = true ->
  transform s = transform_loop s.
Proof.
  intros H. unfold transform. destruct (all_ascii s) eqn:E; [|reflexivity].
  symmetry. apply transform_loop_low.
  apply forallb_forall. intros c Hc.
  apply field_character_ascii.
  - exact (proj1 (forallb_forall _ s) H c Hc).
  - exact (proj1 (forallb_forall _ s) E c Hc).
Qed.

Lemma transform_loop_app (x y : str) :
  forallb (fun c => (ord c <? 127)%N || py_isspace c) x = true ->
  transform_loop (x ++ y) = map tr x ++ transform_loop y.
Proof.
  induction x as [|c x IH]; simpl; [reflexivity|].
  rewrite andb_true_iff. intros [Hc Hx]. rewrite (IH Hx). unfold tr.
  destruct (ord c <? 127)%N; [reflexivity|].
  simpl in Hc. now rewrite Hc.
Qed.

(** *** The reader *)

Lemma skip_c_space_app (sp s : str) :
  forallb c_isspace sp = true -> skip_c_space (sp ++ s) = skip_c_space s.
Proof.
  induction sp as [|c sp IH]; simpl; [reflexivity|].
  rewrite andb_true_iff. intros [-> H]. now apply IH.
Qed.

Lemma skip_c_space_all (sp : str) :
  forallb c_isspace sp = true -> skip_c_space sp = [].
Proof.
  intros H. rewrite <- (app_nil_r sp). now rewrite skip_c_space_app.
Qed.

Lemma scan_digits_app (ds rest : str) (acc : Z) (nd : nat) :
  forallb is_decimal ds = true ->
  scan_digits false acc nd (ds ++ rest)
  = scan_digits false
      (fold_left (fun a c => (10 * a + digit_value c)%Z) ds acc)
      (nd + length ds) rest.
Proof.
  revert acc nd. induction ds as [|c ds IH]; intros acc nd; simpl.
  - intros _. now rewrite Nat.add_0_r.
  - rewrite andb_true_iff. intros [-> H]. rewrite (IH _ _ H).
    f_equal. lia.
Qed.

Lemma scan_digits_stops (rest : str) (acc : Z) (nd : nat) :
  stops rest -> scan_digits false acc nd rest = Some (acc, nd, false, rest).
Proof.
  destruct rest as [|c rest]; simpl; [reflexivity|].
  now intros [-> ->].
Qed.

(** White space, digits, then something the digit loop stops at: the
    reader succeeds exactly when there is a digit and only white space
    follows. *)
Lemma long_from_string_shape (sp ds rest : str) :
  forallb c_isspace sp = true ->
  forallb is_decimal ds = true ->
  stops rest ->
  (ds = [] -> match rest with [] => True | c :: _ => junk c = true end) ->
  long_from_string (sp ++ ds ++ rest)
  = match ds, skip_c_space rest with
    | _ :: _, [] => Some (value ds)
    | _, _ => None
    end.
Proof.
  intros Hsp Hds Hstop Hjunk. unfold long_from_string.
  rewrite (skip_c_space_app _ _ Hsp).
  destruct ds as [|d ds].
  - cbn [app]. destruct rest as [|j rest]; [reflexivity|].
    specialize (Hjunk eq_refl).
    destruct (junk_plain j Hjunk) as (Hs & Hd & Hu & Hp & Hm).
    cbn [skip_c_space]. rewrite Hs, Hp, Hm.
    cbn [startswith lit list_ascii_of_string].
    rewrite Ascii.eqb_sym, Hu. cbn [andb].
    cbn [scan_digits]. rewrite Hd, Hu. reflexivity.
  - pose proof Hds as Hds'. cbn [forallb] in Hds'.
    apply andb_true_iff in Hds' as [Hd _].
    destruct (decimal_plain d Hd) as (Hs & Hu & Hp & Hm).
    cbn [app skip_c_space]. rewrite Hs, Hp, Hm.
    cbn [startswith lit list_ascii_of_string].
    rewrite Ascii.eqb_sym, Hu. cbn [andb].
    change (d :: ds ++ rest) with ((d :: ds) ++ rest).
    rewrite (scan_digits_app _ _ _ _ Hds), (scan_digits_stops _ _ _ Hstop).
    cbn [length Nat.add Nat.eqb]. fold (value (d :: ds)).
    destruct (skip_c_space rest); [|reflexivity].
    now rewrite Z.mul_1_l.
Qed.

(** *** Fields *)

Lemma clean_app (x y : str) : clean (x ++ y) = clean x && clean y.
Proof. apply forallb_app. Qed.

Lemma clean_bad (x1 : str) (j : ascii) (x2 : str) :
  bad j = true -> clean (x1 ++ j :: x2) = false.
Proof.
  intros Hj. rewrite clean_app. unfold clean at 2. cbn [forallb].
  rewrite Hj. cbn [negb andb]. apply andb_false_r.
Qed.

Lemma first_bad (x : str) :
  clean x = true
  \/ exists x1 j x2, x = x1 ++ j :: x2 /\ clean x1 = true /\ bad j = true.
Proof.
  induction x as [|c x IH]; [now left|].
  destruct (bad c) eqn:Hc.
  - right. exists [], c, x. auto.
  - destruct IH as [IH | (x1 & j & x2 & -> & H1 & Hj)].
    + left. unfold clean. simpl. now rewrite Hc.
    + right. exists (c :: x1), j, x2. repeat split; auto.
      unfold clean. simpl. now rewrite Hc.
Qed.

Lemma clean_spaces (x : str) :
  forallb py_isspace x = true -> clean x = true ->
  forallb c_isspace (map tr x) = true
  /\ forallb (fun c => (ord c <? 127)%N || py_isspace c) x = true.
Proof.
  induction x as [|c x IH]; [now split|].
  unfold clean. simpl. rewrite !andb_true_iff, negb_true_iff.
  intros [Hs Hx] [Hb Hc]. destruct (IH Hx Hc) as [IH1 IH2].
  destruct (space_clean c Hs Hb) as [H1 H2]. auto.
Qed.

Lemma clean_digits (x : str) :
  forallb py_isdigit_char x = true -> clean x = true ->
  forallb is_decimal x = true
  /\ forallb (fun c => (ord c <? 127)%N || py_isspace c) x = true
  /\ map tr x = x.
Proof.
  induction x as [|c x IH]; [now repeat split|].
  unfold clean. simpl. rewrite !andb_true_iff, negb_true_iff.
  intros [Hd Hx] [Hb Hc]. destruct (IH Hx Hc) as (IH1 & IH2 & IH3).
  destruct (digit_clean c Hd Hb) as [H1 H2].
  rewrite H1, H2, IH3, (low_tr c H2). auto.
Qed.

Lemma forallb_app_true {A} (f : A -> bool) (x y : list A) :
  forallb f x = true -> forallb f y = true -> forallb f (x ++ y) = true.
Proof. intros Hx Hy. now rewrite forallb_app, Hx, Hy. Qed.

Lemma py_int_field (l m r : str) :
  forallb py_isspace l = true ->
  forallb py_isdigit_char m = true -> m <> [] ->
  forallb py_isspace r = true ->
  py_int (l ++ m ++ r)
  = if clean (l ++ m ++ r) then Ok (value m) else Raise ValueError.
Proof.
  intros Hl Hm Hne Hr. unfold py_int.
  assert (Hsd : forall x, forallb py_isspace x = true ->
                  forallb (fun c => py_isspace c || py_isdigit_char c) x = true).
  { intros x Hx. apply forallb_forall. intros c Hc.
    now rewrite (proj1 (forallb_forall _ x) Hx c Hc). }
  assert (Hds : forallb (fun c => py_isspace c || py_isdigit_char c) m = true).
  { apply forallb_forall. intros c Hc.
    rewrite (proj1 (forallb_forall _ m) Hm c Hc). apply orb_true_r. }
  rewrite transform_field by (repeat apply forallb_app_true; auto).
  rewrite !clean_app.
  destruct (first_bad l) as [Cl | (l1 & j & l2 & -> & Cl1 & Hj)].
  - (* no bad character before the digits *)
    rewrite Cl. destruct (clean_spaces l Hl Cl) as [Sl Kl].
    rewrite (transform_loop_app l _ Kl).
    destruct (first_bad m) as [Cm | (m1 & q & m2 & -> & Cm1 & Hq)].
    + rewrite Cm. destruct (clean_digits m Hm Cm) as (Dm & Km & Tm).
      rewrite (transform_loop_app m _ Km), Tm.
      destruct (first_bad r) as [Cr | (r1 & j & r2 & -> & Cr1 & Hj)].
      * rewrite Cr. destruct (clean_spaces r Hr Cr) as [Sr Kr].
        rewrite <- (app_nil_r r), (transform_loop_app r _ Kr). cbn [transform_loop].
        rewrite app_nil_r, long_from_string_shape; auto.
        -- rewrite (skip_c_space_all _ Sr). now destruct m.
        -- destruct (map tr r) as [|c s] eqn:E; [exact I|].
           simpl in Sr. apply andb_true_iff in Sr as [Sc _].
           now apply c_space_plain.
        -- intros ->. contradiction.
      * rewrite forallb_app in Hr. apply andb_true_iff in Hr as [Hr1 Hr2].
        simpl in Hr2. apply andb_true_iff in Hr2 as [Hsj _].
        destruct (clean_spaces r1 Hr1 Cr1) as [Sr Kr].
        destruct (space_bad j Hsj Hj) as [Lj Jj].
        destruct (junk_plain j Jj) as (Js & Jd & Ju & _).
        rewrite (transform_loop_app r1 _ Kr). cbn [transform_loop]. rewrite Lj.
        rewrite (clean_bad _ _ _ Hj). cbn [andb].
        rewrite long_from_string_shape; auto.
        -- rewrite (skip_c_space_app _ _ Sr). cbn [skip_c_space]. rewrite Js.
           now destruct m.
        -- destruct r1 as [|c r1]; [simpl; auto|].
           simpl in Sr. apply andb_true_iff in Sr as [Sc _].
           simpl. now apply c_space_plain.
        -- intros ->. contradiction.
    + (* a superscript digit *)
      rewrite forallb_app in Hm. apply andb_true_iff in Hm as [Hm1 Hm2].
      simpl in Hm2. apply andb_true_iff in Hm2 as [Hdq _].
      destruct (clean_digits m1 Hm1 Cm1) as (Dm & Km & Tm).
      destruct (digit_bad q Hdq Hq) as [Lq Sq].
      rewrite <- app_assoc, (transform_loop_app m1 _ Km), Tm.
      cbn [app transform_loop]. rewrite Lq, Sq.
      rewrite (clean_bad _ _ _ Hq). cbn [andb].
      rewrite long_from_string_shape; auto.
      * cbn [skip_c_space]. now destruct m1.
      * now split.
  - (* a separator before the digits *)
    rewrite forallb_app in Hl. apply andb_true_iff in Hl as [Hl1 Hl2].
    simpl in Hl2. apply andb_true_iff in Hl2 as [Hsj _].
    destruct (clean_spaces l1 Hl1 Cl1) as [Sl Kl].
    destruct (space_bad j Hsj Hj) as [Lj Jj].
    destruct (junk_plain j Jj) as (Js & Jd & Ju & _).
    rewrite <- app_assoc, (transform_loop_app l1 _ Kl).
    cbn [app transform_loop]. rewrite Lj.
    rewrite (clean_bad _ _ _ Hj). cbn [andb].
    change (map tr l1 ++ j :: transform_loop (l2 ++ m ++ r))
      with (map tr l1 ++ [] ++ j :: transform_loop (l2 ++ m ++ r)).
    rewrite long_from_string_shape; auto.
    now split.
Qed.

(** *** [strip] and [int] *)

Lemma lstrip_split (s : str) :
  exists l, s = l ++ lstrip s /\ forallb py_isspace l = true.
Proof.
  induction s as [|c s (l & E & Hl)]; [now exists []|].
  simpl. destruct (py_isspace c) eqn:Hc.
  - exists (c :: l). simpl. rewrite Hc, Hl. now rewrite <- E.
  - now exists [].
Qed.

Lemma forallb_rev {A} (f : A -> bool) (l : list A) :
  forallb f l = true -> forallb f (rev l) = true.
Proof.
  rewrite !forallb_forall. intros H x Hx. apply H. now apply in_rev.
Qed.

Lemma rstrip_split (s : str) :
  exists r, s = rstrip s ++ r /\ forallb py_isspace r = true.
Proof.
  destruct (lstrip_split (rev s)) as (l & E & Hl).
  exists (rev l). split; [|now apply forallb_rev].
  unfold rstrip. rewrite <- rev_app_distr, <- E. now rewrite rev_involutive.
Qed.

Lemma strip_split (s : str) :
  exists l r, s = l ++ strip s ++ r
              /\ forallb py_isspace l = true /\ forallb py_isspace r = true.
Proof.
  destruct (lstrip_split s) as (l & El & Hl).
  destruct (rstrip_split (lstrip s)) as (r & Er & Hr).
  exists l, r. unfold strip. now rewrite <- Er, <- El.
Qed.

Lemma isdigit_spec (s : str) :
  isdigit s = true <-> s <> [] /\ forallb py_isdigit_char s = true.
Proof.
  unfold isdigit. rewrite andb_true_iff. destruct s; simpl; split;
    intros [H1 H2]; split; auto; try discriminate; contradiction.
Qed.

(** On a field of characters below U+0100 whose trimmed content passes
    [isdigit], [int] raises exactly when the field holds one of the seven
    characters of [bad]; otherwise it yields the decimal value of the
    trimmed content. *)
Lemma py_int_guarded (s : str) :
  isdigit (strip s) = true ->
  py_int s = if clean s then Ok (value (strip s)) else Raise ValueError.
Proof.
  intros H. apply isdigit_spec in H as [Hne Hd].
  destruct (strip_split s) as (l & r & E & Hl & Hr).
  pose proof (py_int_field l (strip s) r Hl Hd Hne Hr) as Hf.
  now rewrite <- E in Hf.
Qed.

Lemma py_int_strip (s : str) (a : Z) :
  isdigit (strip s) = true -> py_int s = Ok a ->
  py_int (strip s) = Ok a /\ a = value (strip s).
Proof.
  intros H Ha. rewrite (py_int_guarded s H) in Ha.
  destruct (clean s) eqn:Cs; [|discriminate]. injection Ha as <-.
  split; [|reflexivity].
  pose proof H as H'. apply isdigit_spec in H' as [Hne Hd].
  pose proof (py_int_field [] (strip s) [] eq_refl Hd Hne eq_refl) as Hf.
  cbn [app] in Hf. rewrite app_nil_r in Hf. rewrite Hf.
  destruct (strip_split s) as (l & r & E & _ & _).
  rewrite E, !clean_app in Cs.
  apply andb_true_iff in Cs as [_ Cs]. apply andb_true_iff in Cs as [Cs _].
  now rewrite Cs.
Qed.



(** ** The carried state *)

Lemma sequence_rule_blank fp ln statement sequencing :
  truthy (sequence statement) && isdigit (strip (sequence statement)) = false ->
  sequence_rule fp ln statement sequencing = ([], Ok sequencing).
Proof. intros H. unfold sequence_rule. now rewrite H. Qed.


Lemma label_rule_blank fp ln statement labels :
  truthy (strip (label statement)) && isdigit (strip (label statement)) = false ->
  label_rule fp ln statement labels = ([], Ok labels).
Proof. intros H. unfold label_rule. now rewrite H. Qed.




(** ** Raises *)

(** C2, at a label that [isdigit] accepts and [int] rejects.  The trimmed
    label of the second statement of [superscript_label] passes the test of
    line 154 and [int(label)] raises [ValueError] at line 156: the loop
    ends there, with the two character diagnostics of the statement
    already appended, and the program prints nothing.  The same happens at
    line 243 for [separator_sequence], where [int(sequence.strip())]
    succeeds and [int(sequence)] raises. *)
Theorem C2_isdigit_int_mismatch_raises :
  isdigit (strip (label (chr 178 :: lit "     Y = 2"))) = true
  /\ py_int (label (chr 178 :: lit "     Y = 2")) = Raise ValueError
  /\ snd (validate (lit "prog.f") superscript_label) = Raise ValueError
  /\ map (fun i => (ln i, cols i, summary i))
       (fst (validate (lit "prog.f") superscript_label))
     = [(2, [1], lit "statement contains"); (2, [1], lit "label field contains")]
  /\ main (mkEnv [] initial) (lit "prog.f") superscript_label = Raise ValueError
  /\ snd (validate (lit "prog.f") separator_sequence) = Raise ValueError
  /\ main (mkEnv [] initial) (lit "prog.f") separator_sequence
     = Raise ValueError.
Proof. vm_compute. repeat split. Qed.

(** *** Where the validator does not raise *)

Lemma forallb_firstn {A} (f : A -> bool) (n : nat) (l : list A) :
  forallb f l = true -> forallb f (firstn n l) = true.
Proof.
  revert n. induction l as [|x l IH]; intros [|n]; simpl; auto.
  rewrite !andb_true_iff. intros [-> H]. auto.
Qed.

Lemma forallb_skipn {A} (f : A -> bool) (n : nat) (l : list A) :
  forallb f l = true -> forallb f (skipn n l) = true.
Proof.
  revert n. induction l as [|x l IH]; intros [|n]; simpl; auto.
  rewrite !andb_true_iff. intros [_ H]. auto.
Qed.

Lemma clean_slice (a b : nat) (s : str) :
  clean s = true -> clean (slice a b s) = true.
Proof. intros H. apply forallb_firstn, forallb_skipn, H. Qed.

Lemma py_int_raises (s : str) (e : exn) : py_int s = Raise e -> e = ValueError.
Proof. unfold py_int. destruct (long_from_string _); congruence. Qed.

Lemma label_rule_outcome fp ln statement labels :
  snd (label_rule fp ln statement labels)
  = if truthy (strip (label statement)) && isdigit (strip (label statement))
    then if clean (label statement)
         then Ok (<[value (strip (label statement)) := ln]> labels)
         else Raise ValueError
    else Ok labels.
Proof.
  unfold label_rule.
  destruct (truthy _ && isdigit _) eqn:Hg; [|reflexivity].
  apply andb_true_iff in Hg as [_ Hd].
  rewrite (py_int_guarded _ Hd). unfold bind, lift, emit, ret.
  now destruct (clean (label statement)).
Qed.

Lemma sequence_rule_outcome fp ln statement sequencing :
  snd (sequence_rule fp ln statement sequencing)
  = if truthy (sequence statement) && isdigit (strip (sequence statement))
    then if clean (sequence statement)
         then Ok (value (strip (sequence statement)))
         else Raise ValueError
    else Ok sequencing.
Proof.
  unfold sequence_rule.
  destruct (truthy _ && isdigit _) eqn:Hg; [|reflexivity].
  apply andb_true_iff in Hg as [_ Hd].
  rewrite (py_int_guarded _ Hd). unfold bind, lift, emit, ret.
  destruct (clean (sequence statement)) eqn:Cs.
  - destruct (py_int_strip _ _ Hd (eq_trans (py_int_guarded _ Hd)
                                     ltac:(rewrite Cs; reflexivity)))
      as [-> _].
    reflexivity.
  - destruct (py_int (strip (sequence statement))) as [S1|e] eqn:E;
      [reflexivity|].
    now rewrite (py_int_raises _ _ E).
Qed.

(** A statement of characters below U+0100 is processed without a raise
    unless its label or its sequence field passes [isdigit] and holds one
    of the seven characters of [bad]. *)
Lemma validate_line_raises fp ln statement st :
  snd (validate_line fp ln statement st) = Raise ValueError
  <-> startswith statement (lit "C") = false
      /\ ((truthy (strip (label statement)) && isdigit (strip (label statement))
           = true /\ clean (label statement) = false)
          \/ (truthy (sequence statement) && isdigit (strip (sequence statement))
              = true /\ clean (sequence statement) = false)).
Proof.
  rewrite validate_line_outcome, label_rule_outcome, sequence_rule_outcome.
  destruct (startswith statement (lit "C")).
  { split; [discriminate | intros [H _]; discriminate]. }
  destruct (truthy (strip (label statement)) && isdigit _);
    destruct (clean (label statement));
    destruct (truthy (sequence statement) && isdigit _);
    destruct (clean (sequence statement));
    split; try discriminate; auto;
    intros [_ [[H1 H2] | [H1 H2]]]; discriminate.
Qed.

Lemma validate_line_clean fp ln statement st :
  clean statement = true ->
  exists st', snd (validate_line fp ln statement st) = Ok st'.
Proof.
  intros Hs.
  rewrite validate_line_outcome, label_rule_outcome, sequence_rule_outcome.
  unfold label, sequence. rewrite !(clean_slice _ _ _ Hs).
  destruct (startswith statement (lit "C")); [eauto|].
  destruct (truthy _ && isdigit _); destruct (truthy _ && isdigit _); eauto.
Qed.

Lemma for_each_clean fp (l : list (nat * str)) (st : State) :
  (forall k statement, In (k, statement) l -> clean statement = true) ->
  exists st', snd (for_each fp st l) = Ok st'.
Proof.
  revert st. induction l as [|[k statement] l IH]; intros st Hl.
  - now exists st.
  - cbn [for_each]. unfold bind.
    destruct (validate_line_clean fp (k + 1) statement st) as [st1 H1].
    { apply (Hl k). now left. }
    destruct (validate_line fp (k + 1) statement st) as [out r].
    cbn [snd] in H1. subst r.
    destruct (IH st1) as [st2 H2].
    { intros k' s' Hin. apply (Hl k'). now right. }
    destruct (for_each fp st1 l) as [out' r']. cbn [snd] in H2 |- *. eauto.
Qed.

(** Every statement of a file of characters below U+0100 without the
    characters of [bad] is processed: the loop ends normally. *)
Lemma validate_clean fp (statements : list str) :
  (forall statement, In statement statements -> clean statement = true) ->
  exists st', snd (validate fp statements) = Ok st'.
Proof.
  intros H. apply for_each_clean. intros k statement Hin.
  apply H. apply in_enumerate in Hin. eapply nth_error_In, Hin.
Qed.

(** *** Rendering *)

Lemma render_renderable (i : Issue) :
  renderable i -> exists s, render i = Ok s.
Proof.
  intros [Hc Hd]. unfold render.
  destruct (cols i) as [|c cs]; [contradiction|].
  destruct (details i) as [|a [|b [|x ds]]]; try discriminate.
  cbn [subscript nth_error]. eauto.
Qed.

Lemma print_all_renderable (l : list Issue) :
  (forall i, In i l -> renderable i) ->
  exists printed, print_all l = Ok printed /\ length printed = length l.
Proof.
  induction l as [|i l IH]; intros H; [now exists []|].
  destruct (render_renderable i) as [s Hs]; [apply H; now left|].
  destruct IH as (printed & Hp & Hl); [intros j Hj; apply H; now right|].
  exists (s :: printed). cbn [print_all]. rewrite Hs, Hp.
  split; [reflexivity|]. simpl. now rewrite Hl.
Qed.

Ltac one_issue H :=
  destruct H as [<- | []]; split; [discriminate | reflexivity].

Lemma validate_line_renderable fp ln statement st i :
  In i (fst (validate_line fp ln statement st)) -> renderable i.
Proof.
  rewrite validate_line_issues, !in_app_iff. intros [H | [H | H]].
  - unfold charset_issues in H. apply in_flat_map in H as ([k c] & _ & H).
    destruct (negb (char_in c CHARSET)); [one_issue H | destruct H].
  - unfold length_issues in H.
    destruct (80 <? length (strip statement)) eqn:E; [|destruct H].
    apply Nat.ltb_lt in E. destruct H as [<- | []].
    split; [|reflexivity]. cbn [cols issue].
    replace (length (strip statement) + 1 - 81)
      with (S (length (strip statement) - 81)) by lia.
    discriminate.
  - destruct (startswith statement (lit "C")); [destruct H|].
    rewrite !in_app_iff in H. destruct H as [H | [H | H]].
    + unfold label_charset_issues in H.
      apply in_flat_map in H as ([k c] & _ & H).
      destruct (negb (char_in c _)); [one_issue H | destruct H].
    + unfold label_rule, bind, lift, emit, ret in H.
      destruct (truthy _ && isdigit _); [|destruct H].
      destruct (py_int (label statement)) as [L|e]; [|destruct H].
      cbn [fst app] in H. rewrite app_nil_r in H.
      destruct (labels st !! L); [one_issue H|].
      destruct (_ && _); [one_issue H | destruct H].
    + destruct (snd (label_rule fp ln statement (labels st))); [|destruct H].
      rewrite !in_app_iff in H. destruct H as [H | [H | [H | H]]].
      * unfold continuation_issues in H.
        destruct (_ && _); [one_issue H | destruct H].
      * unfold sequence_charset_issues in H.
        apply in_flat_map in H as ([k c] & _ & H).
        destruct (negb (char_in c _)); [one_issue H | destruct H].
      * unfold justify_issues in H.
        destruct (_ && _); [one_issue H | destruct H].
      * unfold sequence_rule, bind, lift, emit, ret in H.
        destruct (truthy _ && isdigit _); [|destruct H].
        destruct (py_int (strip (sequence statement))) as [S1|e];
          [|destruct H].
        cbn [app] in H.
        destruct (py_int (sequence statement)); cbn [fst] in H;
          rewrite ?app_nil_r in H;
          (destruct (S1 <=? sequencing st)%Z; [one_issue H | destruct H]).
Qed.

Lemma for_each_renderable fp (l : list (nat * str)) (st : State) (i : Issue) :
  In i (fst (for_each fp st l)) -> renderable i.
Proof.
  revert st. induction l as [|[k statement] l IH]; intros st; [intros []|].
  cbn [for_each]. unfold bind.
  pose proof (validate_line_renderable fp (k + 1) statement st i) as H1.
  destruct (validate_line fp (k + 1) statement st) as [out [st1|e]];
    cbn [fst] in H1; [|exact H1].
  specialize (IH st1). destruct (for_each fp st1 l) as [out' r].
  cbn [fst] in IH |- *. rewrite in_app_iff. intros [H | H]; auto.
Qed.

(** A file of characters below U+0100 without the characters of [bad] is
    processed to its end and reported: the program prints one string for
    each diagnostic, or its single line when there is none. *)
Lemma main_clean env fp (statements : list str) :
  (forall statement, In statement statements -> clean statement = true) ->
  exists st printed,
    main env fp statements
    = Ok ({| issues := fst (validate fp statements); state := st |}, printed)
    /\ snd (validate fp statements) = Ok st
    /\ length printed = Nat.max 1 (length (fst (validate fp statements))).
Proof.
  intros H. destruct (validate_clean fp statements H) as [st Hst].
  pose proof (for_each_renderable fp (enumerate statements) initial) as Hr.
  unfold main, validate in *. cbn [state issues app] in *.
  destruct (for_each fp initial (enumerate statements)) as [out r].
  cbn [fst snd] in *. subst r.
  destruct (print_all_renderable out Hr) as (printed & Hp & Hl).
  destruct out as [|i out].
  - exists st, [lit "No suggestions!"]. auto.
  - exists st, printed. cbn [length Nat.leb]. rewrite Hp.
    repeat split; auto.
Qed.

(** * Further properties of the validator *)

(** ** Messages of one kind *)

Lemma has_summary_spec text i : has_summary text i = true <-> summary i = text.
Proof. apply str_eqb_eq. Qed.

Lemma count_summary_other names text (l : list Issue) :
  (forall i, In i l -> In (summary i) names) ->
  ~ In text names ->
  count (has_summary text) l = 0.
Proof.
  intros Hl Hn. apply count_none. intros i Hi.
  destruct (has_summary text i) eqn:E; [|reflexivity].
  apply has_summary_spec in E. rewrite <- E in Hn. now apply Hl in Hi.
Qed.

(** Rewrites to 0 the counts of a summary over the rules that do not use
    it. *)
Ltac other_summaries :=
  repeat match goal with
    | |- context [count (has_summary ?t) (charset_issues ?fp ?ln ?st)] =>
        rewrite (count_summary_other _ t _ (summary_charset fp ln st))
          by other_summary
    | |- context [count (has_summary ?t) (length_issues ?fp ?ln ?st)] =>
        rewrite (count_summary_other _ t _ (summary_length fp ln st))
          by other_summary
    | |- context [count (has_summary ?t) (label_charset_issues ?fp ?ln ?st)] =>
        rewrite (count_summary_other _ t _ (summary_label_charset fp ln st))
          by other_summary
    | |- context [count (has_summary ?t) (fst (label_rule ?fp ?ln ?st ?l))] =>
        rewrite (count_summary_other _ t _ (summary_label_rule fp ln st l))
          by other_summary
    | |- context [count (has_summary ?t) (continuation_issues ?fp ?ln ?st)] =>
        rewrite (count_summary_other _ t _ (summary_continuation fp ln st))
          by other_summary
    | |- context [count (has_summary ?t)
                    (sequence_charset_issues ?fp ?ln ?st)] =>
        rewrite (count_summary_other _ t _
                   (summary_sequence_charset fp ln st))
          by other_summary
    | |- context [count (has_summary ?t) (justify_issues ?fp ?ln ?st)] =>
        rewrite (count_summary_other _ t _ (summary_justify fp ln st))
          by other_summary
    | |- context [count (has_summary ?t) (fst (sequence_rule ?fp ?ln ?st ?q))] =>
        rewrite (count_summary_other _ t _ (summary_sequence_rule fp ln st q))
          by other_summary
    end.

(** ** The loops over the characters of a field *)

Section CharacterLoop.
Variables (file : str) (n : nat) (s : str).
Variables (set : str) (column_of : nat -> nat) (text : list str) (sev : bool).
Hypothesis column_of_injective : forall a b, column_of a = column_of b -> a = b.

Lemma character_count_other (l : str) (off j : nat) :
  (forall k, off <= k -> column_of k <> j) ->
  count (reports sev [j] text)
    (flat_map (character_issue file n s set column_of text sev)
       (enumerate_from off l)) = 0.
Proof.
  intros Hj. apply count_none. intros i. rewrite in_flat_map.
  intros ([k c] & Hk & Hi). apply in_enumerate_from in Hk as [Hk _].
  unfold character_issue in Hi.
  destruct (negb (char_in c set)); [|destruct Hi].
  destruct Hi as [<- | []].
  destruct (reports _ _ _ _) eqn:E; [|reflexivity].
  apply reports_spec in E as (_ & _ & E). simpl in E.
  injection E as E. now apply Hj in E.
Qed.

Lemma character_count_at (l : str) (off k : nat) (c : ascii) :
  nth_error l k = Some c ->
  count (reports sev [column_of (off + k)] text)
    (flat_map (character_issue file n s set column_of text sev)
       (enumerate_from off l))
  = if char_in c set then 0 else 1.
Proof.
  revert off k. induction l as [|x l IH]; intros off k Hc.
  - now destruct k.
  - cbn [enumerate_from flat_map]. rewrite count_app.
    destruct k as [|k]; simpl in Hc.
    + injection Hc as ->. rewrite Nat.add_0_r.
      rewrite (character_count_other l (S off)).
      * unfold character_issue.
        destruct (char_in c set); [reflexivity|].
        cbn [negb count]. now rewrite reports_issue.
      * intros k Hk E. apply column_of_injective in E. lia.
    + replace (off + S k) with (S off + k) by lia.
      rewrite (IH (S off) k Hc).
      replace (count _ (character_issue _ _ _ _ _ _ _ (off, x))) with 0;
        [reflexivity|].
      symmetry. apply count_none. intros i Hi. unfold character_issue in Hi.
      destruct (negb (char_in x set)); [|destruct Hi].
      destruct Hi as [<- | []].
      destruct (reports _ _ _ _) eqn:E; [|reflexivity].
      apply reports_spec in E as (_ & _ & E). simpl in E.
      injection E as E. apply column_of_injective in E. lia.
Qed.
End CharacterLoop.

(** ** The label field: characters *)

Lemma label_character (s : str) (k : nat) :
  nth_error (label s) k = if k <? 5 then nth_error s k else None.
Proof. unfold label, slice. cbn [skipn Nat.sub]. apply nth_error_firstn. Qed.

(** Every character of columns 1 to 5 of a line that is no comment gets
    exactly one error "label field contains illegal character" at its own
    column unless it is a blank or a digit, whether or not the rest of the
    line is processed. *)
Theorem label_charset_rule file n s st k c :
  startswith s (lit "C") = false ->
  k < 5 ->
  nth_error s k = Some c ->
  count (reports true [k + 1] label_charset_text)
    (fst (validate_line file n s st))
  = if char_in c (lit " 0123456789") then 0 else 1.
Proof.
  intros Hc Hk Hn. rewrite count_by_rule, Hc.
  unfold label_charset_text. other_rules.
  assert (E : count (reports true [k + 1] label_charset_text)
                (label_charset_issues file n s)
              = if char_in c (lit " 0123456789") then 0 else 1).
  { assert (Hinj : forall a b : nat, a + 1 = b + 1 -> a = b)
      by (intros; lia).
    apply (character_count_at file n s (lit " 0123456789") (fun col => col + 1)
             label_charset_text true Hinj (label s) 0 k c).
    rewrite label_character. apply Nat.ltb_lt in Hk. now rewrite Hk. }
  unfold label_charset_text in E. rewrite E.
  destruct (snd (label_rule file n s (labels st))); other_rules; lia.
Qed.

Lemma label_charset_rule_witness :
  startswith (lit " 1A0  X = 1") (lit "C") = false
  /\ 2 < 5
  /\ nth_error (lit " 1A0  X = 1") 2 = Some "A"%char
  /\ count (reports true [3] label_charset_text)
       (fst (validate_line (lit "prog.f") 1 (lit " 1A0  X = 1") initial))
     = (if char_in "A" (lit " 0123456789") then 0 else 1).
Proof.
  split; [reflexivity|]. split; [lia|]. split; [reflexivity|].
  apply (label_charset_rule (lit "prog.f") 1 (lit " 1A0  X = 1") initial
           2 "A"%char); [reflexivity | lia | reflexivity].
Defined.

(** ** The sequence field: characters *)

Lemma rstrip_prefix (x : str) (k : nat) (c : ascii) :
  nth_error (rstrip x) k = Some c -> nth_error x k = Some c.
Proof.
  intros H. destruct (rstrip_split x) as (r & E & _).
  rewrite E. rewrite nth_error_app1; [exact H|].
  apply nth_error_Some. now rewrite H.
Qed.

Lemma sequence_character (s : str) (k : nat) (c : ascii) :
  nth_error (sequence s) k = Some c -> nth_error s (72 + k) = Some c.
Proof.
  unfold sequence, slice. rewrite nth_error_firstn.
  destruct (k <? 80 - 72); [|discriminate]. now rewrite nth_error_skipn.
Qed.

(** For a line that is no comment and is processed without a raise, the
    character [c] at position [k] (from 0) of the trimmed sequence field
    gets exactly one warning "sequence field contains illegal character"
    at column [73 + k] unless it is one of the digits 0 to 9.  When the
    field does not begin with white space, column [73 + k] is where [c]
    stands in the line. *)
Theorem sequence_charset_rule file n s st st' k c :
  startswith s (lit "C") = false ->
  snd (validate_line file n s st) = Ok st' ->
  nth_error (strip (sequence s)) k = Some c ->
  count (reports false [73 + k] sequence_charset_text)
    (fst (validate_line file n s st))
  = (if char_in c (lit "0123456789") then 0 else 1)
  /\ (lstrip (sequence s) = sequence s -> nth_error s (72 + k) = Some c).
Proof.
  intros Hc Hok Hn. split.
  - rewrite validate_line_outcome, Hc in Hok.
    rewrite count_by_rule, Hc.
    destruct (snd (label_rule file n s (labels st))); [|discriminate].
    assert (Hinj : forall a b : nat, 73 + a = 73 + b -> a = b)
      by (intros; lia).
    assert (E : count (reports false [73 + k] sequence_charset_text)
                  (sequence_charset_issues file n s)
                = if char_in c (lit "0123456789") then 0 else 1).
    { apply (character_count_at file n s (lit "0123456789")
               (fun col => 73 + col) sequence_charset_text false Hinj
               (strip (sequence s)) 0 k c Hn). }
    unfold sequence_charset_text in E |- *. other_rules. rewrite E. lia.
  - intros Hl. apply sequence_character, rstrip_prefix.
    unfold strip in Hn. now rewrite Hl in Hn.
Qed.

Lemma sequence_charset_rule_witness :
  startswith lettered_sequence_line (lit "C") = false
  /\ snd (validate_line (lit "prog.f") 1 lettered_sequence_line initial)
     = Ok initial
  /\ nth_error (strip (sequence lettered_sequence_line)) 2 = Some "A"%char
  /\ count (reports false [75] sequence_charset_text)
       (fst (validate_line (lit "prog.f") 1 lettered_sequence_line initial))
     = (if char_in "A" (lit "0123456789") then 0 else 1).
Proof.
  split; [reflexivity|]. split; [reflexivity|]. split; [reflexivity|].
  exact (proj1 (sequence_charset_rule (lit "prog.f") 1 lettered_sequence_line
                  initial initial 2 "A"%char eq_refl eq_refl eq_refl)).
Defined.

(** ** The continuation field *)

Lemma contains_single (s : str) (c : ascii) : contains s [c] = char_in c s.
Proof.
  induction s as [|y s IH]; [reflexivity|].
  cbn [contains startswith]. rewrite IH, startswith_nil, andb_true_r.
  reflexivity.
Qed.

Lemma strip_single (c : ascii) :
  strip [c] = if py_isspace c then [] else [c].
Proof.
  unfold strip, rstrip. cbn [lstrip].
  destruct (py_isspace c) eqn:E; [reflexivity|].
  cbn [rev app lstrip]. now rewrite E.
Qed.

Lemma continuation_character (s : str) :
  continuation s = match nth_error s 5 with Some c => [c] | None => [] end.
Proof.
  unfold continuation, slice.
  rewrite <- (hd_error_skipn 5 s).
  now destruct (skipn 5 s).
Qed.

(** For a line that is no comment and is processed without a raise, the
    warning "continuation field contains illegal character" at column 6 is
    appended, once, if and only if the line has a character in column 6
    that is no white space and is none of [* ! 2 3 4 5 6 7 8 9]; the digits
    [0] and [1] in column 6 are reported. *)
Theorem continuation_rule file n s st st' :
  startswith s (lit "C") = false ->
  snd (validate_line file n s st) = Ok st' ->
  count (reports false [6] continuation_text) (fst (validate_line file n s st))
  = match nth_error s 5 with
    | Some c => if bad_continuation c then 1 else 0
    | None => 0
    end
  /\ bad_continuation "0" = true /\ bad_continuation "1" = true.
Proof.
  intros Hc Hok. split; [|split; reflexivity].
  rewrite validate_line_outcome, Hc in Hok.
  rewrite count_by_rule, Hc.
  destruct (snd (label_rule file n s (labels st))); [|discriminate].
  unfold continuation_text. other_rules. fold continuation_text.
  unfold continuation_issues. rewrite continuation_character.
  destruct (nth_error s 5) as [c|]; [|reflexivity].
  rewrite strip_single. unfold bad_continuation.
  destruct (py_isspace c); [reflexivity|].
  cbn [truthy negb andb]. rewrite contains_single.
  destruct (char_in c (lit "*!23456789")); [reflexivity|].
  cbn [negb count]. unfold continuation_text. now rewrite reports_issue.
Qed.

Lemma continuation_rule_witness :
  startswith zero_continuation_line (lit "C") = false
  /\ snd (validate_line (lit "prog.f") 1 zero_continuation_line initial)
     = Ok initial
  /\ count (reports false [6] continuation_text)
       (fst (validate_line (lit "prog.f") 1 zero_continuation_line initial))
     = 1.
Proof.
  split; [reflexivity|]. split; [reflexivity|].
  exact (proj1 (continuation_rule (lit "prog.f") 1 zero_continuation_line
                  initial initial eq_refl eq_refl)).
Defined.

(** ** The line length rule as the program applies it *)

Lemma lstrip_length (x : str) : length (lstrip x) <= length x.
Proof.
  induction x as [|c x IH]; simpl; [lia|].
  destruct (py_isspace c); simpl; lia.
Qed.

Lemma rstrip_length (x : str) : length (rstrip x) <= length x.
Proof.
  unfold rstrip. rewrite length_rev.
  etransitivity; [apply lstrip_length|]. now rewrite length_rev.
Qed.

Lemma lstrip_app_spaces (l x : str) :
  forallb py_isspace l = true -> lstrip (l ++ x) = lstrip x.
Proof.
  induction l as [|c l IH]; simpl; [reflexivity|].
  rewrite andb_true_iff. intros [-> H]. now apply IH.
Qed.

Lemma lstrip_app_keep (x y : str) :
  lstrip x <> [] -> lstrip (x ++ y) = lstrip x ++ y.
Proof.
  induction x as [|c x IH]; simpl; [contradiction|].
  destruct (py_isspace c); [exact IH | reflexivity].
Qed.

Lemma strip_length (x : str) : length (strip x) <= trailing_trimmed_length x.
Proof.
  destruct (lstrip_split x) as (l & El & Hl).
  unfold trailing_trimmed_length, strip, rstrip. rewrite !length_rev.
  destruct (lstrip (rev (lstrip x))) as [|c y] eqn:E; [simpl; lia|].
  rewrite El, rev_app_distr, lstrip_app_keep by (rewrite E; discriminate).
  rewrite E, length_app. lia.
Qed.

Lemma length_rule_count file n s st :
  count (has_summary (lit "statement exceeds 80 column limit"))
    (fst (validate_line file n s st))
  = (if 80 <? length (strip s) then 1 else 0)
  /\ count (reports false (seq 81 (length (strip s) - 80)) length_text)
       (fst (validate_line file n s st))
     = (if 80 <? length (strip s) then 1 else 0).
Proof.
  rewrite !count_by_rule. unfold length_text.
  other_rules. other_summaries.
  replace (match snd (label_rule file n s (labels st)) with
           | Ok _ => 0 + 0 + 0 + 0 | Raise _ => 0 end) with 0
    by now destruct (snd (label_rule file n s (labels st))).
  replace (if startswith s (lit "C") then 0 else 0 + 0 + 0) with 0
    by now destruct (startswith s (lit "C")).
  unfold length_issues.
  replace (length (strip s) + 1 - 81) with (length (strip s) - 80) by lia.
  destruct (80 <? length (strip s)); [|split; reflexivity].
  cbn [count]. rewrite reports_issue. split; reflexivity.
Qed.

(** A line, comment or not, of at most 80 columns once the white space at
    its end is removed (so any line of at most 80 characters) gets no
    "statement exceeds 80 column limit" diagnostic. *)
Theorem length_rule_short_line file n s st :
  trailing_trimmed_length s <= 80 ->
  count (has_summary (lit "statement exceeds 80 column limit"))
    (fst (validate_line file n s st)) = 0.
Proof.
  intros H. rewrite (proj1 (length_rule_count file n s st)).
  pose proof (strip_length s) as Hs.
  destruct (80 <? length (strip s)) eqn:E; [|reflexivity].
  apply Nat.ltb_lt in E. lia.
Qed.

Lemma length_rule_short_line_witness :
  trailing_trimmed_length padded_line <= 80
  /\ count (has_summary (lit "statement exceeds 80 column limit"))
       (fst (validate_line (lit "prog.f") 1 padded_line initial)) = 0.
Proof.
  split; [vm_compute; lia|].
  apply (length_rule_short_line (lit "prog.f") 1 padded_line initial).
  vm_compute. lia.
Defined.

(** For a line that does not begin with white space, comment or not, the
    rule is the one on the line trimmed at its end: exactly one warning
    spanning columns 81 to the trimmed length when that length exceeds 80,
    and it is the only diagnostic of the rule. *)
Theorem length_rule_flush_left file n s st :
  lstrip s = s ->
  count (reports false (seq 81 (trailing_trimmed_length s - 80)) length_text)
    (fst (validate_line file n s st))
  = (if 80 <? trailing_trimmed_length s then 1 else 0)
  /\ count (has_summary (lit "statement exceeds 80 column limit"))
       (fst (validate_line file n s st))
     = (if 80 <? trailing_trimmed_length s then 1 else 0).
Proof.
  intros H. unfold trailing_trimmed_length.
  assert (E : strip s = rstrip s) by (unfold strip; now rewrite H).
  rewrite <- E.
  destruct (length_rule_count file n s st) as [H1 H2]. now rewrite H1, H2.
Qed.

Lemma length_rule_flush_left_witness :
  lstrip long_comment_free_line = long_comment_free_line
  /\ count (reports false [81; 82; 83] length_text)
       (fst (validate_line (lit "prog.f") 1 long_comment_free_line initial))
     = 1.
Proof.
  split; [reflexivity|].
  exact (proj1 (length_rule_flush_left (lit "prog.f") 1 long_comment_free_line
                  initial eq_refl)).
Defined.

(** ** The label table *)

Lemma fold_left_max (ks : list Z) (k : Z) :
  In (fold_left Z.max ks k) (k :: ks)
  /\ forall x, In x (k :: ks) -> (x <= fold_left Z.max ks k)%Z.
Proof.
  revert k. induction ks as [|y ks IH]; intros k; cbn [fold_left].
  - split; [now left | intros x [<- | []]; lia].
  - destruct (IH (Z.max k y)) as [H1 H2]. split.
    + destruct H1 as [H1 | H1]; [|right; now right].
      rewrite <- H1. destruct (Z.max_spec k y) as [[_ ->] | [_ ->]];
        [right; now left | now left].
    + specialize (H2 (Z.max k y)) as H3. specialize (H3 (or_introl eq_refl)).
      intros x [Hx | [Hx | Hx]]; [lia | lia |].
      apply H2. now right.
Qed.

Lemma in_keys (m : gmap Z nat) (k : Z) :
  In k (map (fun kv => fst kv) (map_to_list m)) <-> is_Some (m !! k).
Proof.
  rewrite in_map_iff. split.
  - intros ([k' v] & <- & H). apply list_elem_of_In, elem_of_map_to_list in H.
    now exists v.
  - intros [v H]. exists (k, v). split; [reflexivity|].
    now apply list_elem_of_In, elem_of_map_to_list.
Qed.

(** [max_key] is the largest key, and there is one unless the table is
    empty. *)
Lemma max_key_spec (m : gmap Z nat) (k : Z) :
  max_key m = Some k
  <-> is_Some (m !! k) /\ forall k', is_Some (m !! k') -> (k' <= k)%Z.
Proof.
  unfold max_key.
  pose proof (in_keys m) as Hk.
  destruct (map (fun kv => fst kv) (map_to_list m)) as [|k0 ks].
  - split; [discriminate|]. intros [H _]. apply Hk in H. destruct H.
  - destruct (fold_left_max ks k0) as [H1 H2]. split.
    + intros [= <-]. split; [now apply Hk|].
      intros k' H. apply H2. now apply Hk.
    + intros [H3 H4]. f_equal. apply Z.le_antisymm.
      * apply H4. now apply Hk.
      * apply H2. now apply Hk.
Qed.

Lemma max_key_None (m : gmap Z nat) :
  max_key m = None <-> forall k, m !! k = None.
Proof.
  unfold max_key. pose proof (in_keys m) as Hk.
  destruct (map (fun kv => fst kv) (map_to_list m)) as [|k0 ks].
  - split; [|reflexivity]. intros _ k.
    destruct (m !! k) eqn:E; [|reflexivity].
    destruct (proj2 (Hk k)); eauto.
  - split; [discriminate|]. intros H.
    destruct (proj1 (Hk k0) (or_introl eq_refl)) as [v Hv]. congruence.
Qed.

Lemma size_positive (m : gmap Z nat) (k : Z) :
  is_Some (m !! k) -> (1 <=? size m) = true.
Proof.
  intros [v H]. apply Nat.leb_le.
  destruct (size m) eqn:E; [|lia].
  apply map_size_empty_iff in E. subst m. now rewrite lookup_empty in H.
Qed.

(** What the label rule appends for a label that the table does not hold. *)
Lemma label_rule_new file n s (table : gmap Z nat) L :
  truthy (strip (label s)) && isdigit (strip (label s)) = true ->
  py_int (label s) = Ok L ->
  table !! L = None ->
  fst (label_rule file n s table)
  = match max_key table with
    | Some largest =>
        if (L <? largest)%Z then
          [issue file n s columns_1_5 (badly_ordered_text largest) false
             [lit "label statements sequentially"]]
        else []
    | None => []
    end.
Proof.
  intros Hg Hi Hn. rewrite (label_rule_numeric file n s table L Hg Hi), Hn.
  cbn [fst]. destruct (max_key table) as [largest|] eqn:E.
  - apply max_key_spec in E as [E _]. rewrite (size_positive _ _ E).
    reflexivity.
  - now rewrite andb_false_r.
Qed.

(** A first declaration in order.  For a line that is no comment and
    declares a label [L] that the table does not hold and that exceeds
    every label of the table (or the table is empty): no "duplicate label"
    and no "badly ordered labels" diagnostic is appended, and when the
    line is processed to its end the table has gained [L] with the current
    line and is otherwise unchanged. *)
Theorem first_declaration_in_order file n s st L :
  declares s L ->
  (forall k, is_Some (labels st !! k) -> (k < L)%Z) ->
  count (has_summary (lit "duplicate label")) (fst (validate_line file n s st))
  = 0
  /\ count (has_summary (lit "badly ordered labels"))
       (fst (validate_line file n s st)) = 0
  /\ forall st', snd (validate_line file n s st) = Ok st' ->
       labels st' = <[L := n]> (labels st).
Proof.
  intros (Hc & Hg & Hi) Hlt.
  assert (Hn : labels st !! L = None).
  { destruct (labels st !! L) eqn:E; [|reflexivity].
    specialize (Hlt L ltac:(eauto)). lia. }
  pose proof (label_rule_new file n s (labels st) L Hg Hi Hn) as Hr.
  assert (Hr' : fst (label_rule file n s (labels st)) = []).
  { rewrite Hr. destruct (max_key (labels st)) as [largest|] eqn:E;
      [|reflexivity].
    apply max_key_spec in E as [E _]. apply Hlt in E.
    destruct (L <? largest)%Z eqn:E'; [|reflexivity].
    apply Z.ltb_lt in E'. lia. }
  repeat split.
  - rewrite count_by_rule, Hc, Hr'. other_summaries.
    destruct (snd (label_rule file n s (labels st))); reflexivity.
  - rewrite count_by_rule, Hc, Hr'. other_summaries.
    destruct (snd (label_rule file n s (labels st))); reflexivity.
  - intros st'. rewrite validate_line_outcome, Hc.
    rewrite (label_rule_numeric file n s (labels st) L Hg Hi). cbn [snd].
    destruct (snd (sequence_rule file n s (sequencing st))); [|discriminate].
    now intros [= <-].
Qed.

Lemma first_declaration_in_order_witness :
  declares (lit "   30 Y = 2") 30
  /\ (forall k, is_Some (labels (mkState {[ 10%Z := 1 ]} (-1)) !! k) ->
        (k < 30)%Z)
  /\ count (has_summary (lit "badly ordered labels"))
       (fst (validate_line (lit "prog.f") 2 (lit "   30 Y = 2")
               (mkState {[ 10%Z := 1 ]} (-1)))) = 0.
Proof.
  assert (D : declares (lit "   30 Y = 2") 30) by (repeat split).
  assert (H : forall k, is_Some (labels (mkState {[ 10%Z := 1 ]} (-1)) !! k) ->
                (k < 30)%Z).
  { intros k [v Hv]. cbn [labels] in Hv.
    apply lookup_singleton_Some in Hv as [<- _]. lia. }
  split; [exact D|]. split; [exact H|].
  exact (proj1 (proj2 (first_declaration_in_order (lit "prog.f") 2
                         (lit "   30 Y = 2") (mkState {[ 10%Z := 1 ]} (-1))
                         30 D H))).
Defined.

(** A declaration out of order.  For a line that is no comment and
    declares a label [L] that the table does not hold, when the largest
    label of the table, [largest], exceeds [L]: exactly one warning is
    appended on columns 1 to 5, "badly ordered labels" with the detail
    "previous was [largest]", there is no "duplicate label" diagnostic, and
    when the line is processed to its end [L] is in the table all the
    same, with the current line. *)
Theorem declaration_out_of_order file n s st L largest :
  declares s L ->
  labels st !! L = None ->
  is_Some (labels st !! largest) ->
  (forall k, is_Some (labels st !! k) -> (k <= largest)%Z) ->
  (L < largest)%Z ->
  count (reports false columns_1_5 (badly_ordered_text largest))
    (fst (validate_line file n s st)) = 1
  /\ count (has_summary (lit "badly ordered labels"))
       (fst (validate_line file n s st)) = 1
  /\ count (has_summary (lit "duplicate label"))
       (fst (validate_line file n s st)) = 0
  /\ forall st', snd (validate_line file n s st) = Ok st' ->
       labels st' = <[L := n]> (labels st).
Proof.
  intros (Hc & Hg & Hi) Hn Hin Hmax Hlt.
  pose proof (label_rule_new file n s (labels st) L Hg Hi Hn) as Hr.
  rewrite (proj2 (max_key_spec (labels st) largest) (conj Hin Hmax)) in Hr.
  rewrite (proj2 (Z.ltb_lt L largest) Hlt) in Hr.
  repeat split.
  - rewrite count_by_rule, Hc, Hr. other_rules. cbn [count].
    rewrite reports_issue.
    destruct (snd (label_rule file n s (labels st))); reflexivity.
  - rewrite count_by_rule, Hc, Hr. other_summaries. cbn [count].
    destruct (snd (label_rule file n s (labels st))); reflexivity.
  - rewrite count_by_rule, Hc, Hr. other_summaries. cbn [count].
    destruct (snd (label_rule file n s (labels st))); reflexivity.
  - intros st'. rewrite validate_line_outcome, Hc.
    rewrite (label_rule_numeric file n s (labels st) L Hg Hi). cbn [snd].
    destruct (snd (sequence_rule file n s (sequencing st))); [|discriminate].
    now intros [= <-].
Qed.

Lemma declaration_out_of_order_witness :
  declares (lit "   20 Z = 3") 20
  /\ labels (mkState {[ 30%Z := 2 ]} (-1)) !! 20%Z = None
  /\ is_Some (labels (mkState {[ 30%Z := 2 ]} (-1)) !! 30%Z)
  /\ (forall k, is_Some (labels (mkState {[ 30%Z := 2 ]} (-1)) !! k) ->
        (k <= 30)%Z)
  /\ (20 < 30)%Z
  /\ count (reports false columns_1_5 (badly_ordered_text 30))
       (fst (validate_line (lit "prog.f") 3 (lit "   20 Z = 3")
               (mkState {[ 30%Z := 2 ]} (-1)))) = 1.
Proof.
  assert (D : declares (lit "   20 Z = 3") 20) by (repeat split).
  assert (H : forall k, is_Some (labels (mkState {[ 30%Z := 2 ]} (-1)) !! k) ->
                (k <= 30)%Z).
  { intros k [v Hv]. cbn [labels] in Hv.
    apply lookup_singleton_Some in Hv as [<- _]. lia. }
  assert (S30 : is_Some (labels (mkState {[ 30%Z := 2 ]} (-1)) !! 30%Z))
    by (exists 2; reflexivity).
  split; [exact D|]. split; [reflexivity|]. split; [exact S30|].
  split; [exact H|]. split; [lia|].
  exact (proj1 (declaration_out_of_order (lit "prog.f") 3 (lit "   20 Z = 3")
                  (mkState {[ 30%Z := 2 ]} (-1)) 20 30 D eq_refl S30 H
                  ltac:(lia))).
Defined.

(** *** The table over a run *)

(** One statement either declares a label, which the table then maps to
    the line of the statement, or leaves the table as it is. *)
Lemma validate_line_labels file n s st st' :
  snd (validate_line file n s st) = Ok st' ->
  (exists L, declares s L /\ labels st' = <[L := n]> (labels st))
  \/ ((forall L, ~ declares s L) /\ labels st' = labels st).
Proof.
  rewrite validate_line_outcome. unfold declares.
  destruct (startswith s (lit "C")).
  { intros [= <-]. right. split; [|reflexivity]. intros L (H & _). discriminate. }
  destruct (truthy (strip (label s)) && isdigit (strip (label s))) eqn:Hg.
  - pose proof Hg as Hd. apply andb_true_iff in Hd as [_ Hd].
    destruct (py_int (label s)) as [L|e] eqn:Hi.
    + rewrite (label_rule_numeric file n s (labels st) L Hg Hi). cbn [snd].
      destruct (snd (sequence_rule file n s (sequencing st))); [|discriminate].
      intros [= <-]. left. exists L. auto.
    + rewrite label_rule_outcome, Hg.
      rewrite (py_int_guarded _ Hd) in Hi.
      destruct (clean (label s)); [discriminate|]. discriminate.
  - rewrite (label_rule_blank file n s (labels st) Hg). cbn [snd].
    destruct (snd (sequence_rule file n s (sequencing st))); [|discriminate].
    intros [= <-]. right. split; [|reflexivity].
    intros L (_ & H & _). discriminate.
Qed.

Lemma for_each_step file st k s rest st' :
  snd (for_each file st ((k, s) :: rest)) = Ok st' ->
  exists st1, snd (validate_line file (k + 1) s st) = Ok st1
              /\ snd (for_each file st1 rest) = Ok st'.
Proof.
  cbn [for_each]. unfold bind.
  destruct (validate_line file (k + 1) s st) as [out [st1|e]];
    [|discriminate].
  destruct (for_each file st1 rest) as [out' r] eqn:E. cbn [snd].
  intros ->. exists st1. now rewrite E.
Qed.

(** After the statements [l], numbered from [off + 1]: an entry of the
    table is an entry it had or the line of a statement declaring the
    label; entries are never removed. *)
Lemma for_each_table file (l : list str) (off : nat) (st st' : State) :
  snd (for_each file st (enumerate_from off l)) = Ok st' ->
  (forall L n, labels st' !! L = Some n ->
     labels st !! L = Some n
     \/ exists j s, nth_error l j = Some s /\ n = off + j + 1 /\ declares s L)
  /\ (forall L, is_Some (labels st !! L) -> is_Some (labels st' !! L)).
Proof.
  revert off st. induction l as [|s l IH]; intros off st.
  - cbn. intros [= <-]. split; auto.
  - cbn [enumerate_from]. intros H.
    apply for_each_step in H as (st1 & H1 & H2).
    destruct (IH (S off) st1 H2) as [IH1 IH2].
    apply validate_line_labels in H1. split.
    + intros L n Hn. destruct (IH1 L n Hn) as [Hn1 | (j & s' & Hj & -> & Hd)].
      * destruct H1 as [(L1 & Hd & E) | (_ & E)]; rewrite E in Hn1.
        -- apply lookup_insert_Some in Hn1 as [[<- <-] | [_ Hn1]]; [|now left].
           right. exists 0, s. repeat split; [lia | apply Hd..].
        -- now left.
      * right. exists (S j), s'. repeat split; [exact Hj | lia | apply Hd..].
    + intros L HL. apply IH2.
      destruct H1 as [(L1 & _ & E) | (_ & E)]; rewrite E; [|exact HL].
      apply lookup_insert_is_Some. destruct (decide (L1 = L)); auto.
Qed.

Lemma for_each_declared file (l : list str) (off : nat) (st st' : State) :
  snd (for_each file st (enumerate_from off l)) = Ok st' ->
  forall j s L, nth_error l j = Some s -> declares s L ->
    exists n, labels st' !! L = Some n /\ off + j + 1 <= n.
Proof.
  revert off st. induction l as [|s0 l IH]; intros off st H j s L Hj Hd.
  - now destruct j.
  - cbn [enumerate_from] in H. apply for_each_step in H as (st1 & H1 & H2).
    destruct j as [|j]; cbn [nth_error] in Hj.
    + injection Hj as ->.
      apply validate_line_labels in H1 as [(L1 & Hd1 & E) | (Hno & _)];
        [|now apply Hno in Hd].
      assert (L1 = L) as ->.
      { destruct Hd as (_ & _ & Hi), Hd1 as (_ & _ & Hi1). congruence. }
      destruct (for_each_table file l (S off) st1 st' H2) as [T1 T2].
      destruct (T2 L) as [n Hn].
      { rewrite E. rewrite lookup_insert_eq. eauto. }
      exists n. split; [exact Hn|].
      destruct (T1 L n Hn) as [Hn1 | (j' & _ & _ & -> & _)]; [|lia].
      rewrite E, lookup_insert_eq in Hn1. injection Hn1 as <-. lia.
    + destruct (IH (S off) st1 H2 j s L Hj Hd) as (n & Hn & Hle).
      exists n. split; [exact Hn | lia].
Qed.

(** After a run that ends normally, the label table maps each label to the
    line of a statement that declares it, and no later statement declares
    it: the table holds, for every declared label, the line of its last
    declaration, and nothing else. *)
Theorem label_table_last_declaration file statements st' L n :
  snd (validate file statements) = Ok st' ->
  labels st' !! L = Some n
  <-> 1 <= n
      /\ (exists s, nth_error statements (n - 1) = Some s /\ declares s L)
      /\ forall m s, n < m -> nth_error statements (m - 1) = Some s ->
           ~ declares s L.
Proof.
  intros H. unfold validate, enumerate in H.
  destruct (for_each_table file statements 0 initial st' H) as [T1 _].
  pose proof (for_each_declared file statements 0 initial st' H) as T3.
  split.
  - intros Hn. destruct (T1 L n Hn) as [Hi | (j & s & Hj & -> & Hd)].
    { cbn [labels initial] in Hi. now rewrite lookup_empty in Hi. }
    split; [lia|]. split.
    + exists s. split; [|exact Hd]. now replace (0 + j + 1 - 1) with j by lia.
    + intros m s' Hm Hs' Hd'.
      destruct (T3 (m - 1) s' L Hs' Hd') as (n' & Hn' & Hle).
      rewrite Hn in Hn'. injection Hn' as <-. lia.
  - intros (Hn & (s & Hs & Hd) & Hlast).
    destruct (T3 (n - 1) s L Hs Hd) as (n' & Hn' & Hle).
    destruct (T1 L n' Hn') as [Hi | (j & s' & Hj & -> & Hd')].
    { cbn [labels initial] in Hi. now rewrite lookup_empty in Hi. }
    destruct (Nat.eq_dec (0 + j + 1) n) as [<- | Hne]; [exact Hn'|].
    exfalso. apply (Hlast (0 + j + 1) s'); [lia | | exact Hd'].
    now replace (0 + j + 1 - 1) with j by lia.
Qed.

Lemma label_table_last_declaration_witness :
  snd (validate (lit "prog.f") thrice_labelled)
  = Ok (mkState {[ 10%Z := 3 ]} (-1))
  /\ (labels (mkState {[ 10%Z := 3 ]} (-1)) !! 10%Z = Some 3
      <-> 1 <= 3
          /\ (exists s, nth_error thrice_labelled (3 - 1) = Some s
                        /\ declares s 10)
          /\ forall m s, 3 < m -> nth_error thrice_labelled (m - 1) = Some s ->
               ~ declares s 10).
Proof.
  split; [reflexivity|].
  exact (label_table_last_declaration (lit "prog.f") thrice_labelled
           (mkState {[ 10%Z := 3 ]} (-1)) 10 3 eq_refl).
Defined.

(** *** The range of the carried values *)

Lemma digit_value_range c :
  is_decimal c = true -> (0 <= digit_value c <= 9)%Z.
Proof. each_character c. Qed.

Lemma fold_digits_range (ds : str) (acc : Z) :
  forallb is_decimal ds = true -> (0 <= acc)%Z ->
  (acc * 10 ^ Z.of_nat (length ds)
   <= fold_left (fun a c => 10 * a + digit_value c) ds acc
   < (acc + 1) * 10 ^ Z.of_nat (length ds))%Z.
Proof.
  revert acc. induction ds as [|c ds IH]; intros acc Hd Ha.
  - cbn. lia.
  - cbn [forallb] in Hd. apply andb_true_iff in Hd as [Hc Hd].
    pose proof (digit_value_range c Hc) as Hv.
    cbn [fold_left length]. rewrite Nat2Z.inj_succ, Z.pow_succ_r by lia.
    specialize (IH (10 * acc + digit_value c)%Z Hd ltac:(lia)).
    assert (0 < 10 ^ Z.of_nat (length ds))%Z by (apply Z.pow_pos_nonneg; lia).
    nia.
Qed.

Lemma field_value_range (f : str) (w : nat) :
  isdigit (strip f) = true -> clean f = true -> length f <= w ->
  (0 <= value (strip f) < 10 ^ Z.of_nat w)%Z.
Proof.
  intros Hd Hc Hw. apply isdigit_spec in Hd as [_ Hd].
  destruct (strip_split f) as (l & r & E & _ & _).
  assert (Cs : clean (strip f) = true).
  { rewrite E, !clean_app in Hc.
    apply andb_true_iff in Hc as [_ Hc]. now apply andb_true_iff in Hc as [Hc _]. }
  destruct (clean_digits _ Hd Cs) as (Dd & _ & _).
  pose proof (fold_digits_range (strip f) 0 Dd ltac:(lia)) as Hr.
  fold (value (strip f)) in Hr.
  assert (Hl : length (strip f) <= w).
  { pose proof (strip_length f). pose proof (rstrip_length f).
    unfold trailing_trimmed_length in *. lia. }
  assert (10 ^ Z.of_nat (length (strip f)) <= 10 ^ Z.of_nat w)%Z
    by (apply Z.pow_le_mono_r; lia).
  lia.
Qed.

Lemma slice_length (a b : nat) (s : str) : length (slice a b s) <= b - a.
Proof. unfold slice. rewrite length_firstn. lia. Qed.

(** A declared label has at most five digits. *)
Lemma declares_range (s : str) (L : Z) :
  declares s L -> (0 <= L <= 99999)%Z.
Proof.
  intros (_ & Hg & Hi). apply andb_true_iff in Hg as [_ Hd].
  rewrite (py_int_guarded _ Hd) in Hi.
  destruct (clean (label s)) eqn:Hc; [|discriminate]. injection Hi as <-.
  pose proof (field_value_range (label s) 5 Hd Hc (slice_length 0 5 s)) as H.
  change (10 ^ Z.of_nat 5)%Z with 100000%Z in H. lia.
Qed.

Lemma validate_line_sequencing file n s st st' :
  snd (validate_line file n s st) = Ok st' ->
  sequencing st' = sequencing st \/ (0 <= sequencing st' <= 99999999)%Z.
Proof.
  rewrite validate_line_outcome.
  destruct (startswith s (lit "C")); [intros [= <-]; now left|].
  destruct (snd (label_rule file n s (labels st))); [|discriminate].
  rewrite sequence_rule_outcome.
  destruct (truthy (sequence s) && isdigit (strip (sequence s))) eqn:Hg.
  - apply andb_true_iff in Hg as [_ Hd].
    destruct (clean (sequence s)) eqn:Hc; [|discriminate].
    intros [= <-]. right. cbn [sequencing].
    pose proof (field_value_range (sequence s) 8 Hd Hc (slice_length 72 80 s))
      as H.
    change (10 ^ Z.of_nat 8)%Z with 100000000%Z in H. lia.
  - intros [= <-]. now left.
Qed.

Lemma for_each_sequencing file (l : list (nat * str)) (st st' : State) :
  snd (for_each file st l) = Ok st' ->
  sequencing st' = sequencing st \/ (0 <= sequencing st' <= 99999999)%Z.
Proof.
  revert st. induction l as [|[k s] l IH]; intros st.
  - cbn. intros [= <-]. now left.
  - intros H. apply for_each_step in H as (st1 & H1 & H2).
    apply validate_line_sequencing in H1. apply IH in H2.
    destruct H2 as [-> | H2]; [exact H1 | now right].
Qed.

Lemma validate_table_entry file statements st' L n :
  snd (validate file statements) = Ok st' ->
  labels st' !! L = Some n ->
  1 <= n /\ exists s, nth_error statements (n - 1) = Some s /\ declares s L.
Proof.
  intros H Hn. unfold validate, enumerate in H.
  destruct (for_each_table file statements 0 initial st' H) as [T1 _].
  destruct (T1 L n Hn) as [Hi | (j & s & Hj & -> & Hd)].
  { cbn [labels initial] in Hi. now rewrite lookup_empty in Hi. }
  split; [lia|]. exists s. split; [|exact Hd].
  now replace (0 + j + 1 - 1) with j by lia.
Qed.

(** After a run that ends normally, every label of the table is between 0
    and 99999 and stands with a line number of the file, and the sequence
    cursor is -1 or between 0 and 99999999. *)
Theorem state_ranges file statements st' :
  snd (validate file statements) = Ok st' ->
  (forall L n, labels st' !! L = Some n ->
     (0 <= L <= 99999)%Z /\ 1 <= n <= length statements)
  /\ (sequencing st' = (-1)%Z \/ (0 <= sequencing st' <= 99999999)%Z).
Proof.
  intros H. split.
  - intros L n Hn.
    apply (validate_table_entry file statements st' L n H) in Hn
      as (H1 & (s & Hs & Hd)).
    split; [now apply (declares_range s)|].
    assert (n - 1 < length statements) by (apply nth_error_Some; congruence).
    lia.
  - exact (for_each_sequencing file _ initial st' H).
Qed.

Lemma state_ranges_witness :
  snd (validate (lit "prog.f") [numbered_line]) = Ok (mkState ∅ 10)
  /\ (sequencing (mkState ∅ 10) = (-1)%Z
      \/ (0 <= sequencing (mkState ∅ 10) <= 99999999)%Z).
Proof.
  split; [reflexivity|].
  exact (proj2 (state_ranges (lit "prog.f") [numbered_line] (mkState ∅ 10)
                  eq_refl)).
Defined.

(** ** Rendering and printing *)

Lemma times_length (c : ascii) (n : nat) : length (times c n) = n.
Proof. apply repeat_length. Qed.

Lemma gutter_length (n : nat) : 4 <= length (gutter n).
Proof. unfold gutter. rewrite !length_app. cbn. lia. Qed.

Lemma validate_line_raise_kind file n s st e :
  snd (validate_line file n s st) = Raise e -> e = ValueError.
Proof.
  rewrite validate_line_outcome, label_rule_outcome, sequence_rule_outcome.
  destruct (startswith s (lit "C")); [discriminate|].
  destruct (truthy (strip (label s)) && isdigit (strip (label s)));
    destruct (clean (label s));
    destruct (truthy (sequence s) && isdigit (strip (sequence s)));
    destruct (clean (sequence s)); congruence.
Qed.

Lemma for_each_raise_kind file (l : list (nat * str)) (st : State) (e : exn) :
  snd (for_each file st l) = Raise e -> e = ValueError.
Proof.
  revert st. induction l as [|[k s] l IH]; intros st; [discriminate|].
  cbn [for_each]. unfold bind.
  pose proof (validate_line_raise_kind file (k + 1) s st) as H1.
  destruct (validate_line file (k + 1) s st) as [out [st1|e1]]; cbn [snd] in *.
  - specialize (IH st1). destruct (for_each file st1 l) as [out' r].
    exact IH.
  - intros [= <-]. now apply H1.
Qed.

Lemma print_all_renders (l : list Issue) (printed : list str) :
  print_all l = Ok printed -> Forall2 (fun i s => render i = Ok s) l printed.
Proof.
  revert printed. induction l as [|i l IH]; intros printed; cbn [print_all].
  - intros [= <-]. constructor.
  - destruct (render i) as [s|e] eqn:E; [|discriminate].
    destruct (print_all l) as [p|e]; [|discriminate].
    intros [= <-]. constructor; auto.
Qed.

Lemma main_normal env file statements st :
  snd (validate file statements) = Ok st ->
  exists printed,
    main env file statements
    = Ok ({| issues := fst (validate file statements); state := st |}, printed)
    /\ (fst (validate file statements) = [] ->
        printed = [lit "No suggestions!"])
    /\ (fst (validate file statements) <> [] ->
        Forall2 (fun i s => render i = Ok s)
          (fst (validate file statements)) printed).
Proof.
  intros Hst.
  pose proof (for_each_renderable file (enumerate statements) initial) as Hr.
  unfold main, validate in *. cbn [state issues app] in *.
  destruct (for_each file initial (enumerate statements)) as [out r].
  cbn [fst snd] in *. subst r.
  destruct (print_all_renderable out Hr) as (printed & Hp & Hl).
  destruct out as [|i out].
  - exists [lit "No suggestions!"]. repeat split; auto. contradiction.
  - exists printed. cbn [length Nat.leb]. rewrite Hp.
    repeat split; [discriminate|]. intros _. now apply print_all_renders.
Qed.

(** What the program prints.  When the loop ends normally the program
    does: it prints the single line "No suggestions!" if no diagnostic was
    appended, and otherwise the rendering of each diagnostic, in the order
    in which they were appended; rendering never raises. *)
Theorem main_prints env file statements st :
  snd (validate file statements) = Ok st ->
  exists printed,
    main env file statements
    = Ok ({| issues := fst (validate file statements); state := st |}, printed)
    /\ (fst (validate file statements) = [] ->
        printed = [lit "No suggestions!"])
    /\ (fst (validate file statements) <> [] ->
        Forall2 (fun i s => render i = Ok s)
          (fst (validate file statements)) printed).
Proof. apply main_normal. Qed.

Lemma main_prints_witness :
  snd (validate (lit "prog.f") [lit "C A COMMENT"]) = Ok initial
  /\ exists printed,
       main (mkEnv [] initial) (lit "prog.f") [lit "C A COMMENT"]
       = Ok ({| issues := fst (validate (lit "prog.f") [lit "C A COMMENT"]);
                state := initial |}, printed)
       /\ (fst (validate (lit "prog.f") [lit "C A COMMENT"]) = [] ->
           printed = [lit "No suggestions!"])
       /\ (fst (validate (lit "prog.f") [lit "C A COMMENT"]) <> [] ->
           Forall2 (fun i s => render i = Ok s)
             (fst (validate (lit "prog.f") [lit "C A COMMENT"])) printed).
Proof.
  split; [reflexivity|].
  exact (main_prints (mkEnv [] initial) (lit "prog.f") [lit "C A COMMENT"]
           initial eq_refl).
Defined.

(** The program raises exactly when the loop does, and then a
    [ValueError]: no [IndexError] comes from rendering. *)
Theorem main_raises env file statements e :
  main env file statements = Raise e
  <-> e = ValueError /\ snd (validate file statements) = Raise ValueError.
Proof.
  split.
  - intros H. destruct (snd (validate file statements)) as [st|e'] eqn:E.
    + destruct (main_normal env file statements st E) as (p & Hp & _).
      congruence.
    + pose proof (for_each_raise_kind file _ initial e' E) as ->.
      split; [|reflexivity]. unfold main, validate in *. cbn [state] in *.
      destruct (for_each file initial (enumerate statements)) as [out r].
      cbn [snd] in E. subst r. congruence.
  - intros [-> H]. unfold main, validate in *. cbn [state] in *.
    destruct (for_each file initial (enumerate statements)) as [out r].
    cbn [snd] in H. now subst r.
Qed.

(** ** Reading the statements *)

Lemma split_newline_nonempty (s : str) : split_newline s <> [].
Proof.
  destruct s as [|c r]; cbn [split_newline]; [discriminate|].
  destruct (Ascii.eqb c newline); [discriminate|].
  destruct (split_newline r); discriminate.
Qed.

Lemma join_cons (sep x : str) (xs : list str) :
  xs <> [] -> join sep (x :: xs) = x ++ sep ++ join sep xs.
Proof. destruct xs; [contradiction | reflexivity]. Qed.

Lemma join_split_newline (s : str) : join [newline] (split_newline s) = s.
Proof.
  induction s as [|c r IH]; [reflexivity|].
  cbn [split_newline]. destruct (Ascii.eqb c newline) eqn:E.
  - apply Ascii.eqb_eq in E. subst c.
    rewrite join_cons by apply split_newline_nonempty. now rewrite IH.
  - pose proof (split_newline_nonempty r) as Hne.
    destruct (split_newline r) as [|x xs]; [contradiction|].
    destruct xs as [|y ys].
    + cbn [join] in *. now rewrite IH.
    + rewrite join_cons in * by discriminate. now rewrite <- IH.
Qed.

Lemma split_newline_free (s x : str) :
  In x (split_newline s) -> ~ In newline x.
Proof.
  revert x. induction s as [|c r IH]; intros x; cbn [split_newline].
  - intros [<- | []] [].
  - destruct (Ascii.eqb c newline) eqn:E.
    + intros [<- | H]; [intros [] | now apply IH].
    + assert (Hc : c <> newline).
      { intros ->. now rewrite Ascii.eqb_refl in E. }
      pose proof (split_newline_nonempty r) as Hne.
      destruct (split_newline r) as [|y ys]; [contradiction|].
      intros [<- | H].
      * intros [Hn | Hn]; [contradiction|].
        apply (IH y); [now left | exact Hn].
      * apply IH. now right.
Qed.

(** The statements read from a text: there is at least one, even for an
    empty text; none holds a line feed; and joined by line feeds they give
    back the text trimmed of the white space at its two ends. *)
Theorem read_statements_join (text : str) :
  read_statements text <> []
  /\ (forall statement, In statement (read_statements text) ->
        ~ In newline statement)
  /\ join [newline] (read_statements text) = strip text.
Proof.
  unfold read_statements. split; [apply split_newline_nonempty|].
  split; [intros x; apply split_newline_free | apply join_split_newline].
Qed.

Lemma lstrip_spaces (x : str) :
  forallb py_isspace x = true -> lstrip x = [].
Proof.
  intros H. rewrite <- (app_nil_r x). now rewrite lstrip_app_spaces.
Qed.

Lemma lstrip_nil_spaces (x : str) :
  lstrip x = [] -> forallb py_isspace x = true.
Proof.
  intros H. destruct (lstrip_split x) as (l & E & Hl).
  rewrite H, app_nil_r in E. now subst l.
Qed.

Lemma rstrip_app_spaces (x r : str) :
  forallb py_isspace r = true -> rstrip (x ++ r) = rstrip x.
Proof.
  intros H. unfold rstrip. rewrite rev_app_distr.
  now rewrite lstrip_app_spaces by now apply forallb_rev.
Qed.

Lemma strip_surrounded (l x r : str) :
  forallb py_isspace l = true -> forallb py_isspace r = true ->
  strip (l ++ x ++ r) = strip x.
Proof.
  intros Hl Hr. unfold strip. rewrite (lstrip_app_spaces l _ Hl).
  destruct (lstrip x) as [|c y] eqn:E.
  - apply lstrip_nil_spaces in E.
    rewrite (lstrip_app_spaces x r E), (lstrip_spaces r Hr). reflexivity.
  - rewrite lstrip_app_keep by (rewrite E; discriminate).
    rewrite E. now apply rstrip_app_spaces.
Qed.

(** White space before and after the text of the file, blank lines
    included, is not read: the statements, and with them the line numbers
    of the diagnostics and the columns of the first statement, are those
    of the text without it. *)
Theorem read_statements_surrounded (l text r : str) :
  forallb py_isspace l = true ->
  forallb py_isspace r = true ->
  read_statements (l ++ text ++ r) = read_statements text
  /\ forall env fp, run env fp (l ++ text ++ r) = run env fp text.
Proof.
  intros Hl Hr.
  assert (E : read_statements (l ++ text ++ r) = read_statements text).
  { unfold read_statements. now rewrite strip_surrounded. }
  split; [exact E|]. intros env fp. unfold run. now rewrite E.
Qed.

Lemma read_statements_surrounded_witness :
  forallb py_isspace [newline; newline] = true
  /\ forallb py_isspace [newline] = true
  /\ read_statements ([newline; newline] ++ two_statements ++ [newline])
     = read_statements two_statements.
Proof.
  split; [reflexivity|]. split; [reflexivity|].
  exact (proj1 (read_statements_surrounded [newline; newline] two_statements
                  [newline] eq_refl eq_refl)).
Defined.

(** A file that is empty or holds white space only is read as one empty
    statement, for which nothing is reported: the program prints "No
    suggestions!". *)
Theorem run_blank_file env fp (text : str) :
  forallb py_isspace text = true ->
  read_statements text = [[]]
  /\ run env fp text
     = Ok ({| issues := []; state := initial |}, [lit "No suggestions!"]).
Proof.
  intros H.
  assert (E : read_statements text = [[]]).
  { unfold read_statements, strip. now rewrite (lstrip_spaces text H). }
  split; [exact E|]. unfold run. rewrite E. reflexivity.
Qed.

Lemma run_blank_file_witness :
  forallb py_isspace (lit "   " ++ [newline; newline]) = true
  /\ run (mkEnv [] initial) (lit "prog.f") (lit "   " ++ [newline; newline])
     = Ok ({| issues := []; state := initial |}, [lit "No suggestions!"]).
Proof.
  split; [reflexivity|].
  exact (proj2 (run_blank_file (mkEnv [] initial) (lit "prog.f")
                  (lit "   " ++ [newline; newline]) eq_refl)).
Defined.

Lemma lstrip_head (x : str) :
  match lstrip x with c :: _ => py_isspace c = false | [] => True end.
Proof.
  induction x as [|c x IH]; cbn [lstrip]; [exact I|].
  destruct (py_isspace c) eqn:E; [exact IH | exact E].
Qed.

Lemma strip_head (x : str) :
  match strip x with c :: _ => py_isspace c = false | [] => True end.
Proof.
  unfold strip. pose proof (lstrip_head x) as H.
  destruct (rstrip_split (lstrip x)) as (r & E & Hr).
  destruct (rstrip (lstrip x)) as [|c y]; [exact I|].
  rewrite E in H. exact H.
Qed.

(** The first statement read from a file does not begin with white space:
    the blanks in front of the first statement of the file are removed
    with the white space around the text, and its columns are counted
    from its first other character. *)
Theorem first_statement_flush_left (text first : str) (rest : list str) :
  read_statements text = first :: rest -> lstrip first = first.
Proof.
  unfold read_statements. pose proof (strip_head text) as H.
  destruct (strip text) as [|c r]; cbn [split_newline].
  - now intros [= <- _].
  - assert (Hc : Ascii.eqb c newline = false).
    { destruct (Ascii.eqb c newline) eqn:E; [|reflexivity].
      apply Ascii.eqb_eq in E. subst c. discriminate H. }
    rewrite Hc. pose proof (split_newline_nonempty r) as Hne.
    destruct (split_newline r) as [|x xs]; [contradiction|].
    intros [= <- _]. cbn [lstrip]. now rewrite H.
Qed.

Lemma first_statement_flush_left_witness :
  read_statements (lit "      X = 1" ++ [newline] ++ lit "      Y = 2")
  = lit "X = 1" :: [lit "      Y = 2"]
  /\ lstrip (lit "X = 1") = lit "X = 1".
Proof.
  split; [reflexivity|].
  exact (first_statement_flush_left
           (lit "      X = 1" ++ [newline] ++ lit "      Y = 2")
           (lit "X = 1") [lit "      Y = 2"] eq_refl).
Defined.

(** ** The diagnostics of a run *)

Ltac own_fields H :=
  destruct H as [<- | []]; repeat split.

(** Every diagnostic of a statement carries the file name, the line number
    and the text of the statement, and is an error exactly when its
    message is one of the three of [error_summaries]. *)
Lemma validate_line_fields file n s st i :
  In i (fst (validate_line file n s st)) ->
  fp i = file /\ ln i = n /\ statement i = s
  /\ dangerous i = existsb (str_eqb (summary i)) error_summaries.
Proof.
  rewrite validate_line_issues, !in_app_iff. intros [H | [H | H]].
  - unfold charset_issues in H. apply in_flat_map in H as ([k c] & _ & H).
    destruct (negb (char_in c CHARSET)); [own_fields H | destruct H].
  - unfold length_issues in H.
    destruct (80 <? length (strip s)); [own_fields H | destruct H].
  - destruct (startswith s (lit "C")); [destruct H|].
    rewrite !in_app_iff in H. destruct H as [H | [H | H]].
    + unfold label_charset_issues in H.
      apply in_flat_map in H as ([k c] & _ & H).
      destruct (negb (char_in c _)); [own_fields H | destruct H].
    + unfold label_rule, bind, lift, emit, ret in H.
      destruct (truthy _ && isdigit _); [|destruct H].
      destruct (py_int (label s)) as [L|e]; [|destruct H].
      cbn [fst app] in H. rewrite app_nil_r in H.
      destruct (labels st !! L); [own_fields H|].
      destruct (_ && _); [own_fields H | destruct H].
    + destruct (snd (label_rule file n s (labels st))); [|destruct H].
      rewrite !in_app_iff in H. destruct H as [H | [H | [H | H]]].
      * unfold continuation_issues in H.
        destruct (_ && _); [own_fields H | destruct H].
      * unfold sequence_charset_issues in H.
        apply in_flat_map in H as ([k c] & _ & H).
        destruct (negb (char_in c _)); [own_fields H | destruct H].
      * unfold justify_issues in H.
        destruct (_ && _); [own_fields H | destruct H].
      * unfold sequence_rule, bind, lift, emit, ret in H.
        destruct (truthy _ && isdigit _); [|destruct H].
        destruct (py_int (strip (sequence s))) as [S1|e]; [|destruct H].
        cbn [app] in H.
        destruct (py_int (sequence s)); cbn [fst] in H;
          rewrite ?app_nil_r in H;
          (destruct (S1 <=? sequencing st)%Z; [own_fields H | destruct H]).
Qed.

Lemma for_each_fields file (l : list str) (off : nat) (st : State) :
  StronglySorted le (map ln (fst (for_each file st (enumerate_from off l))))
  /\ forall i, In i (fst (for_each file st (enumerate_from off l))) ->
       fp i = file
       /\ off < ln i <= off + length l
       /\ nth_error l (ln i - off - 1) = Some (statement i)
       /\ dangerous i = existsb (str_eqb (summary i)) error_summaries.
Proof.
  revert off st. induction l as [|s l IH]; intros off st.
  - cbn. split; [constructor | intros i []].
  - cbn [enumerate_from for_each]. unfold bind.
    pose proof (validate_line_fields file (off + 1) s st) as H1.
    destruct (validate_line file (off + 1) s st) as [out [st1|e]];
      cbn [fst] in H1.
    + destruct (IH (S off) st1) as [IHs IHf].
      destruct (for_each file st1 (enumerate_from (S off) l)) as [out' r].
      cbn [fst] in *. split.
      * assert (Hlow : forall j, In j out' -> off + 1 < ln j).
        { intros j Hj. destruct (IHf j Hj) as (_ & F2 & _). lia. }
        rewrite map_app. clear IHf IH.
        induction out as [|i out IHo]; [exact IHs|].
        cbn [map app]. constructor.
        -- apply IHo. intros j Hj. apply H1. now right.
        -- apply List.Forall_forall. intros m Hm.
           destruct (H1 i (or_introl eq_refl)) as (_ & -> & _).
           apply in_app_iff in Hm as [Hm | Hm].
           ++ apply in_map_iff in Hm as (j & <- & Hj).
              destruct (H1 j (or_intror Hj)) as (_ & -> & _). lia.
           ++ apply in_map_iff in Hm as (j & <- & Hj).
              specialize (Hlow j Hj). lia.
      * intros i Hi. apply in_app_iff in Hi as [Hi | Hi].
        -- destruct (H1 i Hi) as (F1 & F2 & F3 & F4).
           rewrite F2. cbn [length].
           replace (off + 1 - off - 1) with 0 by lia. cbn [nth_error].
           repeat split; auto; try lia. now rewrite F3.
        -- destruct (IHf i Hi) as (F1 & F2 & F3 & F4). cbn [length].
           repeat split; auto; try lia.
           replace (ln i - off - 1) with (S (ln i - S off - 1)) by lia.
           exact F3.
    + split.
      * clear IH. induction out as [|i out IHo]; [constructor|].
        cbn [map]. constructor.
        -- apply IHo. intros j Hj. apply H1. now right.
        -- apply List.Forall_forall. intros m Hm.
           destruct (H1 i (or_introl eq_refl)) as (_ & -> & _).
           apply in_map_iff in Hm as (j & <- & Hj).
           destruct (H1 j (or_intror Hj)) as (_ & -> & _). lia.
      * intros i Hi. destruct (H1 i Hi) as (F1 & F2 & F3 & F4).
        rewrite F2. cbn [length].
        replace (off + 1 - off - 1) with 0 by lia. cbn [nth_error].
        repeat split; auto; try lia. now rewrite F3.
Qed.

(** The diagnostics of a run, whether it ends normally or by a raise, come
    in the order of the lines: their line numbers never decrease, and each
    carries the name of the file, a line number of the file and the text
    of the statement on that line. *)
Theorem diagnostics_in_order file statements :
  StronglySorted le (map ln (fst (validate file statements)))
  /\ forall i, In i (fst (validate file statements)) ->
       fp i = file
       /\ 1 <= ln i <= length statements
       /\ nth_error statements (ln i - 1) = Some (statement i).
Proof.
  destruct (for_each_fields file statements 0 initial) as [H1 H2].
  split; [exact H1|]. intros i Hi.
  destruct (H2 i Hi) as (F1 & F2 & F3 & _).
  repeat split; auto; try lia.
  now replace (ln i - 1) with (ln i - 0 - 1) by lia.
Qed.

(** The severity of a diagnostic goes with its message: the diagnostics of
    a run that are errors are those on an illegal character of the
    statement, on an illegal character of the label field and on a
    duplicate label; all others are warnings. *)
Theorem severity_by_message file statements i :
  In i (fst (validate file statements)) ->
  dangerous i = true <-> In (summary i) error_summaries.
Proof.
  intros Hi.
  destruct (for_each_fields file statements 0 initial) as [_ H].
  destruct (H i Hi) as (_ & _ & _ & ->).
  rewrite existsb_exists. split.
  - intros (x & Hx & E). apply str_eqb_eq in E. now subst x.
  - intros H'. exists (summary i). split; [exact H' | apply str_eqb_refl].
Qed.

Lemma severity_by_message_witness :
  In (issue (lit "prog.f") 2 (lit "      X = a") [11]
        [lit "statement contains"; lit "illegal character"] true
        [lit "try removing"])
    (fst (validate (lit "prog.f") lower_case_file))
  /\ (dangerous (issue (lit "prog.f") 2 (lit "      X = a") [11]
                   [lit "statement contains"; lit "illegal character"] true
                   [lit "try removing"]) = true
      <-> In (summary (issue (lit "prog.f") 2 (lit "      X = a") [11]
                         [lit "statement contains"; lit "illegal character"]
                         true [lit "try removing"]))
            error_summaries).
Proof.
  assert (H : In (issue (lit "prog.f") 2 (lit "      X = a") [11]
                    [lit "statement contains"; lit "illegal character"] true
                    [lit "try removing"])
                (fst (validate (lit "prog.f") lower_case_file)))
    by (left; reflexivity).
  split; [exact H|].
  exact (severity_by_message (lit "prog.f") lower_case_file _ H).
Defined.

(** ** Blank statements *)

Lemma blank_charset (l : str) :
  forallb (Ascii.eqb " ") l = true ->
  forall file n s set,
    char_in " " set = true ->
    forall column_of text sev off,
      flat_map (character_issue file n s set column_of text sev)
        (enumerate_from off l) = [].
Proof.
  intros Hl file n s set Hset column_of text sev.
  induction l as [|c l IH]; intros off; [reflexivity|].
  cbn [forallb] in Hl. apply andb_true_iff in Hl as [Hc Hl].
  apply Ascii.eqb_eq in Hc. subst c.
  cbn [enumerate_from flat_map character_issue]. rewrite Hset.
  cbn [negb app]. now apply IH.
Qed.

Lemma blank_spaces (s : str) :
  forallb (Ascii.eqb " ") s = true -> forallb py_isspace s = true.
Proof.
  intros H. apply forallb_forall. intros c Hc.
  apply (proj1 (forallb_forall _ s) H) in Hc.
  apply Ascii.eqb_eq in Hc. now subst c.
Qed.

Lemma blank_strip (s : str) :
  forallb (Ascii.eqb " ") s = true -> strip s = [].
Proof.
  intros H. unfold strip. now rewrite (lstrip_spaces s (blank_spaces s H)).
Qed.

(** A statement that is empty or made of blanks, up to column 72, gets no
    diagnostic, is processed without a raise and leaves the label table
    and the sequence cursor as they were. *)
Theorem blank_statement_silent file n s st :
  forallb (Ascii.eqb " ") s = true ->
  length s <= 72 ->
  validate_line file n s st = ([], Ok st).
Proof.
  intros Hs Hl.
  assert (Hf : forall a b, forallb (Ascii.eqb " ") (slice a b s) = true).
  { intros a b. apply forallb_firstn, forallb_skipn, Hs. }
  assert (Hc : startswith s (lit "C") = false).
  { destruct s as [|c s]; [reflexivity|]. cbn [forallb] in Hs.
    apply andb_true_iff in Hs as [Hc _]. apply Ascii.eqb_eq in Hc. now subst c. }
  assert (Hq : sequence s = []).
  { unfold sequence, slice. now rewrite skipn_all2. }
  rewrite (surjective_pairing (validate_line file n s st)).
  rewrite validate_line_issues, validate_line_outcome, Hc.
  rewrite label_rule_blank
    by (unfold label; now rewrite (blank_strip _ (Hf 0 5))).
  rewrite sequence_rule_blank by now rewrite Hq.
  cbn [fst snd].
  replace (charset_issues file n s) with (@nil Issue)
    by (symmetry; apply (blank_charset s Hs file n s CHARSET eq_refl
                           (fun column => column + 1) _ _ 0)).
  replace (label_charset_issues file n s) with (@nil Issue).
  2:{ symmetry.
      apply (blank_charset (label s) (Hf 0 5) file n s (lit " 0123456789")
               eq_refl (fun column => column + 1) _ _ 0). }
  unfold length_issues, continuation_issues, sequence_charset_issues,
    justify_issues.
  rewrite (blank_strip s Hs), Hq.
  unfold continuation. rewrite (blank_strip _ (Hf 5 6)).
  destruct st. reflexivity.
Qed.

Lemma blank_statement_silent_witness :
  forallb (Ascii.eqb " ") (times " " 40) = true
  /\ length (times " " 40) <= 72
  /\ validate_line (lit "prog.f") 5 (times " " 40)
       (mkState {[ 10%Z := 1 ]} 20)
     = ([], Ok (mkState {[ 10%Z := 1 ]} 20)).
Proof.
  split; [reflexivity|]. split; [vm_compute; lia|].
  apply (blank_statement_silent (lit "prog.f") 5 (times " " 40)
           (mkState {[ 10%Z := 1 ]} 20)); [reflexivity | vm_compute; lia].
Defined.

(** ** Raises on ASCII text *)

Lemma ascii_bad c : (ord c <? 128)%N = true -> bad c = in_range 28 31 c.
Proof. each_character c. Qed.

Lemma plain_clean c : plain c = true -> bad c = false.
Proof. each_character c. Qed.

Lemma ascii_clean (x : str) :
  all_ascii x = true -> clean x = negb (has_separator x).
Proof.
  unfold all_ascii, clean, has_separator.
  induction x as [|c x IH]; [reflexivity|].
  cbn [forallb existsb]. rewrite andb_true_iff. intros [Hc Hx].
  rewrite (ascii_bad c Hc), (IH Hx). now destruct (in_range 28 31 c).
Qed.

Lemma all_ascii_slice (a b : nat) (s : str) :
  all_ascii s = true -> all_ascii (slice a b s) = true.
Proof. intros H. apply forallb_firstn, forallb_skipn, H. Qed.

(** A statement of ASCII characters raises, a [ValueError], if and only if
    it is no comment and its label field or its sequence field passes the
    test on its trimmed content (lines 154 and 230) while holding one of
    the separators U+001C..U+001F, which [strip] removes and [int] does
    not accept. *)
Theorem validate_line_raises_ascii file n s st :
  all_ascii s = true ->
  snd (validate_line file n s st) = Raise ValueError
  <-> startswith s (lit "C") = false
      /\ ((truthy (strip (label s)) && isdigit (strip (label s)) = true
           /\ has_separator (label s) = true)
          \/ (truthy (sequence s) && isdigit (strip (sequence s)) = true
              /\ has_separator (sequence s) = true)).
Proof.
  intros Ha. rewrite validate_line_raises.
  unfold label at 3, sequence at 3.
  rewrite !(ascii_clean _ (all_ascii_slice _ _ s Ha)), !negb_false_iff.
  reflexivity.
Qed.

Lemma validate_line_raises_ascii_witness :
  all_ascii separator_line = true
  /\ (snd (validate_line (lit "prog.f") 2 separator_line initial)
      = Raise ValueError
      <-> startswith separator_line (lit "C") = false
          /\ ((truthy (strip (label separator_line))
               && isdigit (strip (label separator_line)) = true
               /\ has_separator (label separator_line) = true)
              \/ (truthy (sequence separator_line)
                  && isdigit (strip (sequence separator_line)) = true
                  /\ has_separator (sequence separator_line) = true))).
Proof.
  split; [reflexivity|].
  exact (validate_line_raises_ascii (lit "prog.f") 2 separator_line initial
           eq_refl).
Defined.

(** A file of ASCII characters without the separators U+001C..U+001F is
    processed to its end and reported: no statement raises, and the
    program prints one string for each diagnostic, or its single line when
    there is none. *)
Theorem main_plain env file (statements : list str) :
  (forall statement, In statement statements ->
     forallb plain statement = true) ->
  exists st printed,
    main env file statements
    = Ok ({| issues := fst (validate file statements); state := st |}, printed)
    /\ snd (validate file statements) = Ok st
    /\ length printed = Nat.max 1 (length (fst (validate file statements))).
Proof.
  intros H. apply main_clean. intros statement Hin.
  apply forallb_forall. intros c Hc.
  rewrite (plain_clean c); [reflexivity|].
  exact (proj1 (forallb_forall _ statement) (H statement Hin) c Hc).
Qed.

Lemma main_plain_witness :
  (forall statement, In statement thrice_labelled ->
     forallb plain statement = true)
  /\ exists st printed,
       main (mkEnv [] initial) (lit "prog.f") thrice_labelled
       = Ok ({| issues := fst (validate (lit "prog.f") thrice_labelled);
                state := st |}, printed)
       /\ snd (validate (lit "prog.f") thrice_labelled) = Ok st
       /\ length printed
          = Nat.max 1 (length (fst (validate (lit "prog.f") thrice_labelled))).
Proof.
  assert (H : forall statement, In statement thrice_labelled ->
                forallb plain statement = true).
  { intros statement [<- | [<- | [<- | []]]]; reflexivity. }
  split; [exact H|].
  exact (main_plain (mkEnv [] initial) (lit "prog.f") thrice_labelled H).
Defined.

(** ** The lines of a rendered diagnostic *)

Lemma split_newline_line (x y : str) :
  newline_free x -> split_newline (x ++ newline :: y) = x :: split_newline y.
Proof.
  unfold newline_free. induction x as [|c x IH]; intros Hx.
  - cbn [app split_newline]. now rewrite Ascii.eqb_refl.
  - cbn [app split_newline].
    assert (Hc : Ascii.eqb c newline = false).
    { destruct (Ascii.eqb c newline) eqn:E; [|reflexivity].
      apply Ascii.eqb_eq in E. exfalso. apply Hx. now left. }
    rewrite Hc, IH; [reflexivity|]. intros H. apply Hx. now right.
Qed.

Lemma newline_free_app (x y : str) :
  newline_free x -> newline_free y -> newline_free (x ++ y).
Proof.
  unfold newline_free. intros Hx Hy H. apply in_app_iff in H. tauto.
Qed.

Lemma newline_free_times (c : ascii) (n : nat) :
  c <> newline -> newline_free (times c n).
Proof.
  intros Hc H. apply repeat_spec in H. congruence.
Qed.

Lemma newline_free_uint (d : Decimal.uint) :
  newline_free (lit (NilEmpty.string_of_uint d)).
Proof.
  unfold newline_free.
  induction d; cbn [NilEmpty.string_of_uint lit list_ascii_of_string];
    [intros [] | intros [H | H]; [discriminate H | exact (IHd H)] ..].
Qed.

Lemma newline_free_nat (n : nat) : newline_free (str_of_nat n).
Proof. apply newline_free_uint. Qed.

(** Closes a goal [newline_free s] for a literal string [s]. *)
Ltac literal_free := unfold newline_free; other_summary.

Lemma newline_free_gutter (n : nat) : newline_free (gutter n).
Proof.
  unfold gutter. repeat apply newline_free_app;
    [literal_free | apply newline_free_nat | literal_free].
Qed.

Lemma newline_free_before_caret (n c0 : nat) : newline_free (before_caret n c0).
Proof.
  unfold before_caret. repeat apply newline_free_app;
    [apply newline_free_times; discriminate | literal_free
    | apply newline_free_times; discriminate].
Qed.

(** Closes a goal [newline_free s] for [s] put together from parts that
    are known to hold no line feed. *)
Ltac newline_free_parts :=
  repeat first
    [ assumption
    | apply newline_free_nat
    | apply newline_free_gutter
    | apply newline_free_before_caret
    | apply newline_free_times; discriminate
    | literal_free
    | apply newline_free_app ].

Lemma before_caret_length (n c0 : nat) :
  length (before_caret n c0) = length (gutter n) + (c0 - 1).
Proof.
  pose proof (gutter_length n). unfold before_caret.
  rewrite !length_app, !times_length. cbn [length lit list_ascii_of_string].
  lia.
Qed.

Lemma before_caret_characters (n c0 k : nat) :
  k < length (before_caret n c0) ->
  exists c, nth_error (before_caret n c0) k = Some c
            /\ (c = " "%char \/ c = "|"%char).
Proof.
  intros Hk. destruct (nth_error (before_caret n c0) k) as [c|] eqn:E.
  - exists c. split; [reflexivity|]. apply nth_error_In in E.
    unfold before_caret in E. rewrite !in_app_iff in E.
    destruct E as [[E | E] | E].
    + apply repeat_spec in E. now left.
    + destruct E as [<- | [<- | []]]; [now right | now left].
    + apply repeat_spec in E. now left.
  - apply nth_error_None in E. lia.
Qed.

(** The lines of a rendered diagnostic.  For a diagnostic with a first
    column [c0], a message of two parts, and no line feed in its file name,
    statement and message, [__str__] returns a text whose first line is the
    header with file, line, column, severity and message, whose second
    line is the gutter followed by the statement, and whose third line is
    [render_underline]: the caret is at the position of column [c0] of the
    statement in the line above, only blanks and the bar of the spacer
    stand before it, one tilde follows for each further column of the
    span, then a blank and the second part of the message.  What follows
    are the suggestions, each after "= help: " and indented as the bar is,
    joined by line feeds and closed by one. *)
Theorem render_lines (i : Issue) (c0 : nat) (cs : list nat) (a b : str) :
  cols i = c0 :: cs ->
  details i = [a; b] ->
  newline_free (fp i) ->
  newline_free (statement i) ->
  newline_free a ->
  newline_free b ->
  (exists text,
     render i = Ok text
     /\ split_newline text
        = render_header i c0
            :: (gutter (ln i) ++ statement i)
            :: render_underline (ln i) c0 (length cs) b
            :: split_newline
                 (join [newline]
                    (map (fun suggestion =>
                            times " " (length (gutter (ln i)) - 2)
                              ++ lit "= help: " ++ suggestion)
                       (suggestions i))
                  ++ [newline]))
  /\ nth_error (render_underline (ln i) c0 (length cs) b)
       (length (gutter (ln i)) + (c0 - 1)) = Some "^"%char
  /\ nth_error (gutter (ln i) ++ statement i)
       (length (gutter (ln i)) + (c0 - 1))
     = nth_error (statement i) (c0 - 1)
  /\ (forall k, k < length (gutter (ln i)) + (c0 - 1) ->
        exists c, nth_error (render_underline (ln i) c0 (length cs) b) k
                  = Some c
                  /\ (c = " "%char \/ c = "|"%char))
  /\ (forall k, k < length cs ->
        nth_error (render_underline (ln i) c0 (length cs) b)
          (length (gutter (ln i)) + (c0 - 1) + 1 + k) = Some "~"%char).
Proof.
  intros Hc Hd Hfp Hst Ha Hb.
  pose proof (before_caret_length (ln i) c0) as Hlen.
  split; [|split; [|split; [|split]]].
  - unfold render. rewrite Hc, Hd. cbn [subscript nth_error].
    fold (gutter (ln i)). eexists. split; [reflexivity|].
    cbn [length Nat.sub]. rewrite Nat.sub_0_r.
    change [chr 10] with [newline].
    set (help := join [newline] _ ++ [newline]).
    replace ((ANSI.BOLD ++ fp i ++ lit ":" ++ str_of_nat (ln i) ++ lit ":"
                ++ str_of_nat c0 ++ ANSI.RESET ++ lit ": "
                ++ (if dangerous i then ANSI.RED else ANSI.YELLOW)
                ++ (if dangerous i then lit "error" else lit "warning")
                ++ ANSI.RESET ++ lit ": " ++ join (lit " ") [a; b] ++ [newline])
             ++ (gutter (ln i) ++ statement i ++ [newline])
             ++ (times " " (length (gutter (ln i)) - 2) ++ lit "| ")
             ++ (times " " (c0 - 1) ++ (lit "^" ++ times "~" (length cs))
                   ++ lit " " ++ b ++ [newline])
             ++ help)
      with (render_header i c0
              ++ newline :: (gutter (ln i) ++ statement i)
              ++ newline :: render_underline (ln i) c0 (length cs) b
              ++ newline :: help).
    + rewrite !split_newline_line; [reflexivity | | |].
      * unfold render_underline. newline_free_parts.
      * newline_free_parts.
      * unfold render_header. rewrite Hd. cbn [join].
        destruct (dangerous i); newline_free_parts.
    + unfold render_header, render_underline, before_caret.
      rewrite Hd.
      repeat (rewrite <- ?app_assoc; cbn [app]). reflexivity.
  - unfold render_underline. rewrite nth_error_app2 by lia.
    rewrite Hlen, Nat.sub_diag. reflexivity.
  - rewrite nth_error_app2 by lia. f_equal. lia.
  - intros k Hk. unfold render_underline.
    rewrite nth_error_app1 by lia.
    apply before_caret_characters. lia.
  - intros k Hk. unfold render_underline.
    rewrite nth_error_app2 by lia.
    replace (length (gutter (ln i)) + (c0 - 1) + 1 + k
             - length (before_caret (ln i) c0)) with (S k) by lia.
    cbn [lit list_ascii_of_string app nth_error].
    rewrite nth_error_app1 by (rewrite times_length; lia).
    unfold times. now apply nth_error_repeat.
Qed.

Lemma render_lines_witness :
  cols sample_issue = 7 :: [8; 9]
  /\ details sample_issue = [lit "statement contains"; lit "illegal character"]
  /\ newline_free (fp sample_issue)
  /\ newline_free (statement sample_issue)
  /\ newline_free (lit "statement contains")
  /\ newline_free (lit "illegal character")
  /\ nth_error (render_underline (ln sample_issue) 7 (length [8; 9])
                 (lit "illegal character"))
       (length (gutter (ln sample_issue)) + (7 - 1)) = Some "^"%char.
Proof.
  assert (F1 : newline_free (fp sample_issue)) by literal_free.
  assert (F2 : newline_free (statement sample_issue)) by literal_free.
  assert (F3 : newline_free (lit "statement contains")) by literal_free.
  assert (F4 : newline_free (lit "illegal character")) by literal_free.
  repeat (split; [first [reflexivity | assumption]|]).
  exact (proj1 (proj2 (render_lines sample_issue 7 [8; 9]
                         (lit "statement contains") (lit "illegal character")
                         eq_refl eq_refl F1 F2 F3 F4))).
Defined.

(** ** Two runs *)



